(** * Session and authorization subsystem of the ID-verification client

    A shallow embedding of
      - [src/contexts/AuthContext.tsx]   (AuthProvider: loadStoredUser, login,
        register, logout),
      - [src/contexts/APIContext.tsx]    (APIProvider: the axios instance and
        its request / response interceptors),
      - [App.tsx] and [src/navigation/*] (AppContent, MainNavigator, MainTabs,
        AuthNavigator),
      - [src/config/api.ts] (detectBaseUrl), [src/screens/auth/*] (handleLogin,
        handleRegister) and [src/screens/admin/PendingApprovalsScreen.tsx]
        (approveUser, rejectUser),
    followed by the properties of the specification, each settled against
    these definitions, and by further properties of the code. *)

From Stdlib Require Import ZArith Ascii.
From stdpp Require Import base option list strings gmap.

Set Warnings "-register-all".

Local Open Scope string_scope.
Local Open Scope Z_scope.

(** ** JavaScript values

    The values the code handles are untyped at run time: [JSON.parse] and
    [response.json()] return [any], and the TypeScript annotations are not
    checked.  A number is kept as the bit pattern of its IEEE-754 binary64
    representation; the code never computes with one, it only tests it. *)

Inductive JsValue : Type :=
  | JsUndefined
  | JsNull
  | JsBool (b : bool)
  | JsNumber (bits : Z)
  | JsString (s : string)
  | JsArray (items : list JsValue)
  | JsObject (fields : list (string * JsValue)).

(** [+0], [-0] and [NaN] are the falsy numbers. *)
Definition number_truthy (bits : Z) : bool :=
  let magnitude := Z.land bits 0x7FFFFFFFFFFFFFFF in
  negb (magnitude =? 0) && (magnitude <=? 0x7FF0000000000000).

(** The test of [if (v)], [v ? a : b] and [v || d]. *)
Definition truthy (v : JsValue) : bool :=
  match v with
  | JsUndefined | JsNull => false
  | JsBool b => b
  | JsNumber bits => number_truthy bits
  | JsString s => negb (String.eqb s EmptyString)
  | JsArray _ | JsObject _ => true
  end.

(** [a || b] *)
Definition js_or (a b : JsValue) : JsValue := if truthy a then a else b.

Definition nullish (v : JsValue) : bool :=
  match v with
  | JsUndefined | JsNull => true
  | _ => false
  end.

Fixpoint lookup_field (key : string) (fields : list (string * JsValue)) : JsValue :=
  match fields with
  | [] => JsUndefined
  | (k, v) :: rest => if String.eqb k key then v else lookup_field key rest
  end.

(** [v.key] for the property names the code reads ([email], [id], [role],
    [detail], [access_token], ...): a [TypeError] ([None]) on [null] and
    [undefined], the field of an object, and [undefined] on every other
    value, none of which has a property of such a name. *)
Definition get_prop (v : JsValue) (key : string) : option JsValue :=
  match v with
  | JsUndefined | JsNull => None
  | JsObject fields => Some (lookup_field key fields)
  | _ => Some JsUndefined
  end.

(** [v?.key] *)
Definition get_prop_opt (v : JsValue) (key : string) : JsValue :=
  match get_prop v key with
  | Some x => x
  | None => JsUndefined
  end.

(** [a === s] for a string literal [s] *)
Definition strict_eq_string (a : JsValue) (s : string) : bool :=
  match a with
  | JsString x => String.eqb x s
  | _ => false
  end.

(** ** HTTP *)

Record Request : Type := mkRequest {
  url : string;
  method : string;
  headers : gmap string string;
  body : option string
}.

Record Response : Type := mkResponse {
  status : Z;
  text : string
}.

(** [response.ok] *)
Definition ok (r : Response) : bool := (200 <=? status r) && (status r <=? 299).

(** What the network does with one request: the server answers, or no answer
    arrives (no connectivity, timeout). *)
Inductive HttpOutcome : Type :=
  | Responded (r : Response)
  | NoResponse.

(** ** Thrown values *)

Inductive JsError : Type :=
  | TypeError
  | SyntaxError
  | ReferenceError
  | NetworkFailure
  | StorageFailure
  | Error (message : JsValue)
  | AxiosError (response : option Response).

(** ** The runtime the code is linked against

    Library functions and constants of the environment.  The code's
    behaviour is stated for every runtime. *)

Inductive Platform : Type :=
  | Web           (* [window] and [localStorage] exist; AsyncStorage is backed
                     by that same [localStorage] *)
  | ReactNative   (* [window] is the global object, [localStorage] is not
                     defined *)
  | Headless.     (* no [window] *)

Class Runtime : Type := {
  (** [JSON.parse]; [None] when it throws a [SyntaxError] *)
  JSON_parse : string -> option JsValue;
  (** [JSON.stringify] *)
  JSON_stringify : JsValue -> string;
  encodeURIComponent : string -> string;
  (** the string conversion of a value that is not a string *)
  ToString : JsValue -> string;
  (** what [AsyncStorage.setItem] does with a value that is not a string:
      the string its backend stores in its place, or [None] when it
      rejects *)
  setItem_nonstring : JsValue -> option string;
  (** [API_CONFIG.BASE_URL], the result of [detectBaseUrl()] *)
  BASE_URL : string;
  platform : Platform
}.

(** ** The world: durable storage, React state, and what was done so far *)

Inductive Event : Type :=
  | EvSetItem (key value : string)
  | EvRemoveItem (key : string)
  | EvSetUser (v : JsValue)
  | EvSetLoading (b : bool)
  | EvFetch (r : Request)
  | EvAxios (r : Request).

Record World : Type := mkWorld {
  (** the contents of AsyncStorage *)
  storage : gmap string string;
  (** [const [user, setUser] = useState<User | null>(null)] *)
  user : JsValue;
  (** [const [loading, setLoading] = useState(true)] *)
  loading : bool;
  (** storage writes, state updates and dispatched requests, oldest first *)
  trace : list Event
}.

Definition set_storage (m : gmap string string) (w : World) : World :=
  mkWorld m (user w) (loading w) (trace w).
Definition set_user (v : JsValue) (w : World) : World :=
  mkWorld (storage w) v (loading w) (trace w).
Definition set_loading (b : bool) (w : World) : World :=
  mkWorld (storage w) (user w) b (trace w).
Definition record (e : Event) (w : World) : World :=
  mkWorld (storage w) (user w) (loading w) (trace w ++ [e]).

(** The state of a freshly mounted [AuthProvider] over a given storage. *)
Definition mount (m : gmap string string) : World := mkWorld m JsNull true [].

(** ** Asynchronous computations: state passing with exceptions *)

Inductive Result (A : Type) : Type :=
  | Ok (a : A)
  | Throw (e : JsError).
Arguments Ok {A} a.
Arguments Throw {A} e.

Definition Async (A : Type) : Type := World -> Result A * World.

Definition ret {A} (a : A) : Async A := fun w => (Ok a, w).
Definition throw {A} (e : JsError) : Async A := fun w => (Throw e, w).
Definition bind {A B} (m : Async A) (k : A -> Async B) : Async B :=
  fun w =>
    match m w with
    | (Ok a, w') => k a w'
    | (Throw e, w') => (Throw e, w')
    end.

(** [try { m } catch (e) { h e }] *)
Definition try_catch {A} (m : Async A) (h : JsError -> Async A) : Async A :=
  fun w =>
    match m w with
    | (Ok a, w') => (Ok a, w')
    | (Throw e, w') => h e w'
    end.

(** [try { m } finally { f }], for an [f] that does not throw *)
Definition finally {A} (m : Async A) (f : World -> World) : Async A :=
  fun w => let '(r, w') := m w in (r, f w').

(** a synchronous state update *)
Definition effect (f : World -> World) : Async unit := fun w => (Ok tt, f w).

Notation "'await' x <- m ; k" := (bind m (fun x => k))
  (at level 10, x name, m at level 100, k at level 200).
Notation "m ;; k" := (bind m (fun _ => k))
  (at level 100, k at level 200, right associativity).

(** the world a computation leaves, and its result *)
Definition after {A} (m : Async A) (w : World) : World := snd (m w).
Definition outcome {A} (m : Async A) (w : World) : Result A := fst (m w).

(** [v.key] as a step that may throw *)
Definition prop (v : JsValue) (key : string) : Async JsValue :=
  match get_prop v key with
  | Some x => ret x
  | None => throw TypeError
  end.

(** ** AsyncStorage

    Every call may reject (an I/O error of the storage backend); whether it
    does is an input, [fault], of the call.  A rejected call leaves the
    storage as it was. *)

Section AsyncStorage.
Context `{Runtime}.

Definition getItem (fault : bool) (key : string) : Async (option string) :=
  fun w => if fault then (Throw StorageFailure, w) else (Ok (storage w !! key), w).

Definition write_item (key value : string) : Async unit :=
  effect (fun w => record (EvSetItem key value) (set_storage (<[key := value]> (storage w)) w)).

(** what is stored for a value handed to [setItem], if anything *)
Definition stored_form (value : JsValue) : option string :=
  match value with
  | JsString s => Some s
  | _ => setItem_nonstring value
  end.

Definition setItem (fault : bool) (key : string) (value : JsValue) : Async unit :=
  if fault then throw StorageFailure
  else match stored_form value with
       | Some s => write_item key s
       | None => throw StorageFailure
       end.

Definition removeItem (fault : bool) (key : string) : Async unit :=
  if fault then throw StorageFailure
  else effect (fun w => record (EvRemoveItem key) (set_storage (delete key (storage w)) w)).

(** [localStorage.removeItem(key)] in the browser, where [localStorage] is
    the store AsyncStorage keeps its items in. *)
Definition localStorage_removeItem (key : string) : Async unit :=
  removeItem false key.

(** [if (item)] for what [getItem] resolved to, a [string | null]: the
    string when the test passes. *)
Definition truthy_item (item : option string) : option string :=
  match item with
  | Some s => if String.eqb s EmptyString then None else Some s
  | None => None
  end.

End AsyncStorage.

(** ** fetch *)

Definition fetch (r : Request) (o : HttpOutcome) : Async Response :=
  fun w =>
    match o with
    | Responded resp => (Ok resp, record (EvFetch r) w)
    | NoResponse => (Throw NetworkFailure, record (EvFetch r) w)
    end.

(** ** config/api.ts *)

Section Config.
Context `{Runtime}.

Inductive AuthEndpoint : Type := LOGIN | REGISTER | ME.

Definition ENDPOINTS_AUTH (e : AuthEndpoint) : string :=
  match e with
  | LOGIN => "/auth/login"
  | REGISTER => "/auth/register"
  | ME => "/auth/me"
  end.

Definition TIMEOUT : Z := 30000.

Definition getApiUrl (endpoint : string) : string := BASE_URL ++ endpoint.

Definition getAuthUrl (e : AuthEndpoint) : string := getApiUrl (ENDPOINTS_AUTH e).

End Config.

(** ** contexts/AuthContext.tsx *)

Section AuthContext.
Context `{Runtime}.

Definition setUser (v : JsValue) : Async unit :=
  effect (fun w => record (EvSetUser v) (set_user v w)).

Definition setLoading (b : bool) (w : World) : World :=
  record (EvSetLoading b) (set_loading b w).

(** [response.json()] *)
Definition json (r : Response) : Async JsValue :=
  match JSON_parse (text r) with
  | Some v => ret v
  | None => throw SyntaxError
  end.

(** [f_user] and [f_token] tell whether the two reads reject. *)
Definition loadStoredUser (f_user f_token : bool) : Async unit :=
  finally
    (try_catch
       (await storedUser <- getItem f_user "user";
        await storedToken <- getItem f_token "token";
        match truthy_item storedUser with
        | Some text =>
            await userData <-
              match JSON_parse text with
              | Some v => ret v
              | None => throw SyntaxError
              end;
            (* console.log(..., userData.email) *)
            await email <- prop userData "email";
            setUser userData
        | None =>
            setUser JsNull
        end)
       (fun error => setUser JsNull))
    (setLoading false).

(** [let message = d; try { message = JSON.parse(text).detail || message } catch {}] *)
Definition error_message (d : string) (body : string) : JsValue :=
  match JSON_parse body with
  | Some v =>
      match get_prop v "detail" with
      | Some detail => js_or detail (JsString d)
      | None => JsString d
      end
  | None => JsString d
  end.

Definition login_request (email password : string) : Request :=
  mkRequest (getAuthUrl LOGIN) "POST"
    {[ "Content-Type" := "application/x-www-form-urlencoded" ]}
    (Some ("username=" ++ encodeURIComponent email ++
           "&password=" ++ encodeURIComponent password)).

(** [`${v}`] *)
Definition template (v : JsValue) : string :=
  match v with
  | JsString s => s
  | _ => ToString v
  end.

Definition me_request (access_token : JsValue) : Request :=
  mkRequest (getAuthUrl ME) "GET"
    {[ "Authorization" := "Bearer " ++ template access_token ]}
    None.

(** [r_login] and [r_me] are what the network does with the two requests,
    [f_user] and [f_token] whether the two writes reject. *)
Definition login (email password : string) (r_login r_me : HttpOutcome)
    (f_user f_token : bool) : Async unit :=
  try_catch
    (await response <- fetch (login_request email password) r_login;
     if negb (ok response) then
       throw (Error (error_message "Login failed" (text response)))
     else
       await data <- json response;
       await access_token <- prop data "access_token";
       await userResponse <- fetch (me_request access_token) r_me;
       if ok userResponse then
         await userData <- json userResponse;
         await id <- prop userData "id";
         await email <- prop userData "email";
         await name <- prop userData "name";
         await phone <- prop userData "phone";
         await role <- prop userData "role";
         await is_approved <- prop userData "is_approved";
         await created_at <- prop userData "created_at";
         let user := JsObject [("id", id); ("email", email); ("name", name);
                               ("phone", phone); ("role", role);
                               ("is_approved", is_approved);
                               ("created_at", created_at)] in
         setItem f_user "user" (JsString (JSON_stringify user));;
         setItem f_token "token" access_token;;
         setUser user
       else
         throw (Error (JsString "Failed to get user details")))
    (fun error => throw error).

(** an omitted optional argument is [undefined] *)
Definition optional (s : option string) : JsValue :=
  match s with
  | Some x => JsString x
  | None => JsUndefined
  end.

Definition register_request (email password name : string) (phone : option string)
    : Request :=
  mkRequest (getAuthUrl REGISTER) "POST"
    {[ "Content-Type" := "application/json" ]}
    (Some (JSON_stringify
             (JsObject [("email", JsString email); ("password", JsString password);
                        ("name", JsString name); ("phone", optional phone);
                        ("role", JsString "police")]))).

Definition register (email password name : string) (phone : option string)
    (r : HttpOutcome) : Async unit :=
  try_catch
    (await response <- fetch (register_request email password name phone) r;
     if negb (ok response) then
       throw (Error (error_message "Registration failed" (text response)))
     else
       ret tt)
    (fun error => throw error).

(** [if (typeof window !== 'undefined') { localStorage.removeItem('user');
    localStorage.removeItem('token') }] *)
Definition browser_cleanup : Async unit :=
  match platform with
  | Web => localStorage_removeItem "user";; localStorage_removeItem "token"
  | ReactNative => throw ReferenceError
  | Headless => ret tt
  end.

(** [f_user] and [f_token] tell whether the two removals reject. *)
Definition logout (f_user f_token : bool) : Async unit :=
  try_catch
    (removeItem f_user "user";;
     removeItem f_token "token";;
     setUser JsNull;;
     browser_cleanup)
    (fun error => setUser JsNull).

End AuthContext.

(** ** contexts/APIContext.tsx *)

Section APIContext.

(** The request interceptor; [f_read] tells whether the read rejects. *)
Definition request_interceptor (f_read : bool) (config : Request) : Async Request :=
  await token <- getItem f_read "token";
  match truthy_item token with
  | Some t =>
      ret (mkRequest (url config) (method config)
             (<["Authorization" := "Bearer " ++ t]> (headers config))
             (body config))
  | None =>
      ret config
  end.

(** axios hands the request to the network; a status outside 2xx rejects
    with an error that carries the response, no answer rejects with an error
    that carries none. *)
Definition dispatch (config : Request) (o : HttpOutcome) : Async Response :=
  fun w =>
    match o with
    | Responded resp =>
        if ok resp then (Ok resp, record (EvAxios config) w)
        else (Throw (AxiosError (Some resp)), record (EvAxios config) w)
    | NoResponse => (Throw (AxiosError None), record (EvAxios config) w)
    end.

(** [error.response?.status === 401] *)
Definition is_unauthorized (error : JsError) : bool :=
  match error with
  | AxiosError (Some resp) => status resp =? 401
  | _ => false
  end.

(** The rejection handler of the response interceptor; [f_user] and
    [f_token] tell whether the two removals reject. *)
Definition response_rejected (f_user f_token : bool) (error : JsError)
    : Async Response :=
  (if is_unauthorized error then
     removeItem f_user "user";;
     removeItem f_token "token"
   else
     ret tt);;
  throw error.

(** A call [api.get(...)] / [api.post(...)]: the promise chain
    request interceptor, dispatch, response interceptor.  The fulfilment
    handler of the response interceptor is the identity. *)
Definition api_request (config : Request) (f_read : bool) (o : HttpOutcome)
    (f_user f_token : bool) : Async Response :=
  try_catch
    (await config' <- request_interceptor f_read config;
     dispatch config' o)
    (response_rejected f_user f_token).

End APIContext.

(** ** App.tsx and navigation/ *)

Inductive Screen : Type :=
  | Login | Register | WaitingApproval
  | MainTabs_ | VerificationResult
  | PoliceDashboard | Upload | PoliceLogs
  | AdminDashboard | PendingApprovals | AdminLogs | UserManagement.

(** What is rendered: the loading screen, or a navigator with its screens;
    a nested navigator is a screen with screens of its own. *)
Inductive View : Type :=
  | LoadingScreen
  | Navigator (screens : list (Screen * list Screen)).

Definition AuthNavigator : View :=
  Navigator [(Login, []); (Register, []); (WaitingApproval, [])].

Definition MainTabs (user : JsValue) : list Screen :=
  if strict_eq_string (get_prop_opt user "role") "admin" then
    [AdminDashboard; PendingApprovals; AdminLogs; UserManagement]
  else
    [PoliceDashboard; Upload; PoliceLogs].

Definition MainNavigator (user : JsValue) : View :=
  Navigator [(MainTabs_, MainTabs user); (VerificationResult, [])].

Definition AppContent (loading : bool) (user : JsValue) : View :=
  if loading then LoadingScreen
  else if truthy user then MainNavigator user else AuthNavigator.

(** The Role Router: what [AppContent] renders in a given world. *)
Definition Router (w : World) : View := AppContent (loading w) (user w).

(** The unauthenticated screen graph (login, register, pending-approval
    explainer), and the officer and the administrator screen graphs. *)
Definition unauthenticated_graph : View :=
  Navigator [(Login, []); (Register, []); (WaitingApproval, [])].

Definition officer_graph : View :=
  Navigator [(MainTabs_, [PoliceDashboard; Upload; PoliceLogs]); (VerificationResult, [])].

Definition admin_graph : View :=
  Navigator [(MainTabs_, [AdminDashboard; PendingApprovals; AdminLogs; UserManagement]);
             (VerificationResult, [])].

(** every screen that can be navigated to in a view *)
Definition navigable (v : View) : list Screen :=
  match v with
  | LoadingScreen => []
  | Navigator screens => flat_map (fun '(s, inner) => s :: inner) screens
  end.

(** ** The session, as the specification names it *)

Inductive Status : Type := Unknown | Anonymous | Authenticated.

(** The status is what [AppContent] branches on. *)
Definition Session_status (w : World) : Status :=
  if loading w then Unknown
  else if truthy (user w) then Authenticated else Anonymous.

Definition user_present (w : World) : bool := truthy (user w).

Definition token_present (w : World) : bool :=
  bool_decide (is_Some (storage w !! "token")).

Definition store_empty (w : World) : bool :=
  bool_decide (storage w !! "user" = None) && bool_decide (storage w !! "token" = None).

(** Invariant I1 of the specification. *)
Definition paired (w : World) : bool :=
  Bool.eqb (user_present w) (token_present w).

(** The record [User] of [types/index.ts] and the object it is at run time. *)
Inductive Role : Type := police | admin.

Record User : Type := mkUser {
  id : string;
  email : string;
  name : string;
  phone : option string;
  role : Role;
  is_approved : bool;
  created_at : string
}.

Definition role_name (r : Role) : string :=
  match r with
  | police => "police"
  | admin => "admin"
  end.

Definition js_of_User (u : User) : JsValue :=
  JsObject [("id", JsString (id u)); ("email", JsString (email u));
            ("name", JsString (name u));
            ("phone", match phone u with Some p => JsString p | None => JsUndefined end);
            ("role", JsString (role_name (role u)));
            ("is_approved", JsBool (is_approved u));
            ("created_at", JsString (created_at u))].

(** ** What the two exchanges of a login amount to *)

Section Exchanges.
Context `{Runtime}.

(** The token exchange succeeds: [/auth/login] answers 2xx with a JSON body
    whose [access_token] can be read. *)
Definition token_exchange (r_login : HttpOutcome) : option JsValue :=
  match r_login with
  | Responded resp =>
      if ok resp then
        match JSON_parse (text resp) with
        | Some data => get_prop data "access_token"
        | None => None
        end
      else None
  | NoResponse => None
  end.

(** The profile fetch fails: no answer, a status outside 2xx, or a body that
    holds no profile (not JSON, or [null]). *)
Definition profile_fetch_fails (r_me : HttpOutcome) : bool :=
  match r_me with
  | Responded resp =>
      negb (ok resp) ||
      match JSON_parse (text resp) with
      | Some userData => nullish userData
      | None => true
      end
  | NoResponse => true
  end.

End Exchanges.

(** ** Runs of the session controller and the request pipeline *)

Section Runs.
Context `{Runtime}.

Inductive Op : Type :=
  | OpRestore (f_user f_token : bool)
  | OpLogin (email password : string) (r_login r_me : HttpOutcome)
      (f_user f_token : bool)
  | OpRegister (email password name : string) (phone : option string)
      (r : HttpOutcome)
  | OpLogout (f_user f_token : bool)
  | OpApi (config : Request) (f_read : bool) (o : HttpOutcome)
      (f_user f_token : bool).

Definition step (op : Op) (w : World) : World :=
  match op with
  | OpRestore f_user f_token => after (loadStoredUser f_user f_token) w
  | OpLogin email password r_login r_me f_user f_token =>
      after (login email password r_login r_me f_user f_token) w
  | OpRegister email password name phone r =>
      after (register email password name phone r) w
  | OpLogout f_user f_token => after (logout f_user f_token) w
  | OpApi config f_read o f_user f_token =>
      after (api_request config f_read o f_user f_token) w
  end.

Definition run (ops : list Op) (w : World) : World :=
  fold_left (fun w op => step op w) ops w.

Definition answered_401 (o : HttpOutcome) : bool :=
  match o with
  | Responded resp => status resp =? 401
  | NoResponse => false
  end.

(** The store holds neither key, or both keys with a [user] text that can be
    read and parses to a truthy value. *)
Definition coherent_store (f_user f_token : bool) (w : World) : bool :=
  match storage w !! "user" with
  | None => negb (token_present w)
  | Some s =>
      negb f_user && negb f_token && token_present w && negb (String.eqb s EmptyString) &&
      match JSON_parse s with
      | Some v => truthy v
      | None => false
      end
  end.

(** The operations under which the pairing of user and token is kept:
    restore over a coherent store, login, register, logout without a failing
    removal, and a pipeline call that is not answered 401. *)
Definition safe (op : Op) (w : World) : bool :=
  match op with
  | OpRestore f_user f_token => coherent_store f_user f_token w
  | OpLogin _ _ _ _ _ _ => true
  | OpRegister _ _ _ _ _ => true
  | OpLogout f_user f_token => negb f_user && negb f_token
  | OpApi _ _ o _ _ => negb (answered_401 o)
  end.

Fixpoint safe_run (ops : list Op) (w : World) : bool :=
  match ops with
  | [] => true
  | op :: rest => safe op w && safe_run rest (step op w)
  end.

Definition starts_with_restore (ops : list Op) : bool :=
  match ops with
  | OpRestore _ _ :: _ => true
  | _ => false
  end.

End Runs.

(** ** A concrete runtime, for running the definitions on examples

    Each function is an excerpt of the library function it stands for: it
    agrees with it on the texts and values listed, which are the only ones
    the examples below reach. *)

Module Demo.

Definition q : string := String (ascii_of_nat 34) EmptyString.

(** a string literal of JSON, for a text that needs no escaping *)
Definition quoted (s : string) : string := q ++ s ++ q.

(** [{"access_token":"T"}] *)
Definition token_text : string :=
  "{" ++ quoted "access_token" ++ ":" ++ quoted "T" ++ "}".

(** [{"id":"1","email":"a@x.com","name":"A","role":"police",
     "is_approved":true,"created_at":"2024-01-01"}] *)
Definition profile_text : string :=
  "{" ++ quoted "id" ++ ":" ++ quoted "1" ++ ","
      ++ quoted "email" ++ ":" ++ quoted "a@x.com" ++ ","
      ++ quoted "name" ++ ":" ++ quoted "A" ++ ","
      ++ quoted "role" ++ ":" ++ quoted "police" ++ ","
      ++ quoted "is_approved" ++ ":true,"
      ++ quoted "created_at" ++ ":" ++ quoted "2024-01-01" ++ "}".

Definition token_value : JsValue := JsObject [("access_token", JsString "T")].

Definition profile_value : JsValue :=
  JsObject [("id", JsString "1"); ("email", JsString "a@x.com");
            ("name", JsString "A"); ("role", JsString "police");
            ("is_approved", JsBool true); ("created_at", JsString "2024-01-01")].

(** [JSON.parse] on four texts; no other text is parsed in the examples. *)
Definition parse (s : string) : option JsValue :=
  if String.eqb s token_text then Some token_value
  else if String.eqb s profile_text then Some profile_value
  else if String.eqb s "{}" then Some (JsObject [])
  else if String.eqb s "null" then Some JsNull
  else None.

Fixpoint members (fields : list (string * JsValue)) : list string :=
  match fields with
  | [] => []
  | (k, JsString s) :: rest => (quoted k ++ ":" ++ quoted s) :: members rest
  | (k, JsBool true) :: rest => (quoted k ++ ":true") :: members rest
  | (k, JsBool false) :: rest => (quoted k ++ ":false") :: members rest
  | (k, JsNull) :: rest => (quoted k ++ ":null") :: members rest
  | (k, _) :: rest => members rest
  end.

Fixpoint join (l : list string) : string :=
  match l with
  | [] => EmptyString
  | [x] => x
  | x :: rest => x ++ "," ++ join rest
  end.

(** [JSON.stringify] on an object whose fields are strings that need no
    escaping, booleans, [null] or [undefined]. *)
Definition stringify (v : JsValue) : string :=
  match v with
  | JsObject fields => "{" ++ join (members fields) ++ "}"
  | _ => "null"
  end.

Fixpoint encode (s : string) : string :=
  match s with
  | EmptyString => EmptyString
  | String c rest =>
      if Ascii.eqb c "@"%char then "%40" ++ encode rest else String c (encode rest)
  end.

(** [String(v)] on [undefined], [null], booleans and plain objects. *)
Definition to_string (v : JsValue) : string :=
  match v with
  | JsUndefined => "undefined"
  | JsNull => "null"
  | JsBool true => "true"
  | JsBool false => "false"
  | _ => "[object Object]"
  end.

(** The app on a phone: [encode] is [encodeURIComponent] on letters, digits,
    [.] and [@]; the native storage module rejects a value that is not a
    string. *)
Definition runtime : Runtime := {|
  JSON_parse := parse;
  JSON_stringify := stringify;
  encodeURIComponent := encode;
  ToString := to_string;
  setItem_nonstring := fun _ => None;
  BASE_URL := "http://127.0.0.1:8000";
  platform := ReactNative
|}.

Definition ok_login : HttpOutcome := Responded (mkResponse 200 token_text).
Definition ok_me : HttpOutcome := Responded (mkResponse 200 profile_text).
Definition unauthorized : HttpOutcome := Responded (mkResponse 401 EmptyString).

(** a storage that holds the pair written by a login *)
Definition full_store : gmap string string :=
  <["token" := "T"]> (<["user" := profile_text]> ∅).

Definition logs_request : Request := mkRequest "/logs/" "GET" ∅ None.

End Demo.

(** ** A restart of the app

    The process ends and the app is started again: the React state is back
    to its initial values, AsyncStorage holds what it held. *)
Definition restart (w : World) : World := mkWorld (storage w) JsNull true (trace w).

(** The request the pipeline dispatches for [config] when the store holds
    [token]. *)
Definition attached (token : option string) (config : Request) : Request :=
  match truthy_item token with
  | Some t =>
      mkRequest (url config) (method config)
        (<["Authorization" := "Bearer " ++ t]> (headers config)) (body config)
  | None => config
  end.

(** ** config/api.ts: detectBaseUrl

    A string is the sequence of its UTF-16 code units; the strings of this
    model hold code units below 256, one per character. *)

From Stdlib Require Import DecimalString.

Definition is_digit (c : ascii) : bool :=
  (48 <=? nat_of_ascii c)%nat && (nat_of_ascii c <=? 57)%nat.

(** what follows the prefix [p] in [s], when [s] starts with [p] *)
Fixpoint after_prefix (p s : string) : option string :=
  match p with
  | EmptyString => Some s
  | String a p' =>
      match s with
      | String b s' => if Ascii.eqb a b then after_prefix p' s' else None
      | EmptyString => None
      end
  end.

Definition starts_with (p s : string) : bool :=
  match after_prefix p s with
  | Some _ => true
  | None => false
  end.

(** [1[6-9]|2\d|3[0-1]], on two characters *)
Definition second_octet (a b : ascii) : bool :=
  (Ascii.eqb a "1" && (54 <=? nat_of_ascii b)%nat && (nat_of_ascii b <=? 57)%nat) ||
  (Ascii.eqb a "2" && is_digit b) ||
  (Ascii.eqb a "3" && (48 <=? nat_of_ascii b)%nat && (nat_of_ascii b <=? 49)%nat).

(** [/^(10\.|172\.(1[6-9]|2\d|3[0-1])\.|192\.168\.)/.test(host)] *)
Definition isLanIp (host : string) : bool :=
  starts_with "10." host ||
  match after_prefix "172." host with
  | Some (String a behind) =>
      match behind with
      | String b behind' => second_octet a b && starts_with "." behind'
      | EmptyString => false
      end
  | _ => false
  end ||
  starts_with "192.168." host.

(** [hostname] is [window.location?.hostname] where [window] is defined and
    the property can be read, [None] elsewhere. *)
Definition detectBaseUrl (hostname : option string) : string :=
  match truthy_item hostname with
  | Some host =>
      if String.eqb host "localhost" || String.eqb host "127.0.0.1" then
        "http://127.0.0.1:8000"
      else if isLanIp host then
        "http://" ++ host ++ ":8000"
      else
        "http://127.0.0.1:8000"
  | None => "http://127.0.0.1:8000"
  end.

(** the decimal numeral of a number, and a host name in dotted-quad form *)
Definition decimal (n : nat) : string := NilZero.string_of_uint (Nat.to_uint n).

Definition dotted_quad (a b c d : nat) : string :=
  decimal a ++ "." ++ decimal b ++ "." ++ decimal c ++ "." ++ decimal d.

(** the private ranges 10.0.0.0/8, 172.16.0.0/12 and 192.168.0.0/16 *)
Definition private_range (a b : nat) : bool :=
  (a =? 10)%nat ||
  ((a =? 172)%nat && (16 <=? b)%nat && (b <=? 31)%nat) ||
  ((a =? 192)%nat && (b =? 168)%nat).

(** ** navigation/MainNavigator.tsx: the tab bar *)

(** the [name] of a screen in its navigator *)
Definition screen_name (s : Screen) : string :=
  match s with
  | Login => "Login"
  | Register => "Register"
  | WaitingApproval => "WaitingApproval"
  | MainTabs_ => "MainTabs"
  | VerificationResult => "VerificationResult"
  | PoliceDashboard => "PoliceDashboard"
  | Upload => "Upload"
  | PoliceLogs => "PoliceLogs"
  | AdminDashboard => "AdminDashboard"
  | PendingApprovals => "PendingApprovals"
  | AdminLogs => "AdminLogs"
  | UserManagement => "UserManagement"
  end.

(** [screenOptions.tabBarIcon]: the name of the icon drawn for the tab of
    the route named [route_name], in the tab bar [MainTabs] renders for
    [user]. *)
Definition tabBarIcon (user : JsValue) (route_name : string) : string :=
  if strict_eq_string (get_prop_opt user "role") "admin" then
    if String.eqb route_name "AdminDashboard" then "dashboard"
    else if String.eqb route_name "PendingApprovals" then "pending-actions"
    else if String.eqb route_name "AdminLogs" then "history"
    else if String.eqb route_name "UserManagement" then "people"
    else "help"
  else
    if String.eqb route_name "PoliceDashboard" then "dashboard"
    else if String.eqb route_name "Upload" then "camera-alt"
    else if String.eqb route_name "PoliceLogs" then "history"
    else "help".

(** ** screens/auth: LoginScreen and RegisterScreen *)

(** [\s], on a code unit below 256 *)
Definition is_space (c : ascii) : bool :=
  let n := nat_of_ascii c in
  ((9 <=? n)%nat && (n <=? 13)%nat) || (n =? 32)%nat || (n =? 160)%nat.

(** [[^\s@]] *)
Definition plain (c : ascii) : bool := negb (is_space c) && negb (Ascii.eqb c "@").

Fixpoint all_plain (s : string) : bool :=
  match s with
  | EmptyString => true
  | String c rest => plain c && all_plain rest
  end.

(** the text before the first [@] and the text after it *)
Fixpoint split_at_sign (s : string) : option (string * string) :=
  match s with
  | EmptyString => None
  | String c rest =>
      if Ascii.eqb c "@" then Some (EmptyString, rest)
      else match split_at_sign rest with
           | Some (before, behind) => Some (String c before, behind)
           | None => None
           end
  end.

(** a dot that is followed by at least one character *)
Fixpoint dot_then_more (s : string) : bool :=
  match s with
  | EmptyString => false
  | String c rest =>
      (Ascii.eqb c "." && negb (String.eqb rest EmptyString)) || dot_then_more rest
  end.

(** [/^[^\s@]+@[^\s@]+\.[^\s@]+$/.test(s)]: as no part of the pattern
    matches an [@] but the [@] itself, the local part ends at the first [@];
    behind it come one character or more, a dot, and one character or
    more. *)
Definition emailRegex_test (s : string) : bool :=
  match split_at_sign s with
  | Some (local, domain) =>
      negb (String.eqb local EmptyString) && all_plain local && all_plain domain &&
      match domain with
      | EmptyString => false
      | String _ rest => dot_then_more rest
      end
  | None => false
  end.

(** [s.includes(needle)] *)
Fixpoint includes (s needle : string) : bool :=
  String.prefix needle s ||
  match s with
  | EmptyString => false
  | String _ rest => includes rest needle
  end.

Inductive SnackbarType : Type := snack_success | snack_error | snack_info.

(** The state of a form screen: its own [loading] flag, the snackbar, and
    the navigations it has scheduled with [setTimeout]. *)
Record FormState : Type := mkForm {
  form_loading : bool;
  snackbarVisible : bool;
  snackbarMessage : string;
  snackbarType : SnackbarType;
  scheduled : list Screen
}.

Definition showMessage (message : string) (type : SnackbarType) (st : FormState)
    : FormState :=
  mkForm (form_loading st) true message type (scheduled st).

Definition set_form_loading (b : bool) (st : FormState) : FormState :=
  mkForm b (snackbarVisible st) (snackbarMessage st) (snackbarType st) (scheduled st).

Definition schedule (s : Screen) (st : FormState) : FormState :=
  mkForm (form_loading st) (snackbarVisible st) (snackbarMessage st) (snackbarType st)
    (scheduled st ++ [s]).

Section AuthScreens.
Context `{Runtime}.
(** the message of an error thrown by the engine or by a library *)
Context (engine_message : JsError -> string).

(** [error.message] *)
Definition message_of (e : JsError) : string :=
  match e with
  | Error m => template m
  | _ => engine_message e
  end.

(** the text [handleLogin] shows for an error with a non-empty message *)
Definition login_error_text (message : string) : string :=
  if includes message "Invalid credentials" || includes message "incorrect" ||
     includes message "wrong" || includes message "401" ||
     includes message "unauthorized" then
    "Incorrect email or password. Please check your credentials and try again."
  else if includes message "not approved" || includes message "pending" then
    "Your account is pending admin approval. Please wait for approval or contact an administrator."
  else if includes message "network" || includes message "fetch" ||
          includes message "connection" then
    "Network error. Please check your internet connection and try again."
  else if includes message "not found" || includes message "404" then
    "Account not found. Please check your email or register for a new account."
  else
    message.

Definition handleLogin (email password : string) (r_login r_me : HttpOutcome)
    (f_user f_token : bool) (st : FormState) (w : World) : FormState * World :=
  if String.eqb email EmptyString || String.eqb password EmptyString then
    (showMessage "Please enter both email and password" snack_error st, w)
  else if negb (emailRegex_test email) then
    (showMessage "Please enter a valid email address" snack_error st, w)
  else
    let st := set_form_loading true st in
    match login email password r_login r_me f_user f_token w with
    | (Ok _, w') => (set_form_loading false st, w')
    | (Throw e, w') =>
        let errorMessage :=
          if String.eqb (message_of e) EmptyString then
            "An unexpected error occurred. Please try again."
          else login_error_text (message_of e) in
        (set_form_loading false (showMessage errorMessage snack_error st), w')
    end.

(** the text [handleRegister] shows for an error with a non-empty message *)
Definition register_error_text (message : string) : string :=
  if includes message "already exists" || includes message "duplicate" then
    "An account with this email already exists. Please use a different email or try logging in."
  else if includes message "network" || includes message "fetch" then
    "Network error. Please check your internet connection and try again."
  else
    message.

Definition handleRegister (email password confirmPassword name phone : string)
    (r : HttpOutcome) (st : FormState) (w : World) : FormState * World :=
  if String.eqb email EmptyString || String.eqb password EmptyString ||
     String.eqb name EmptyString then
    (showMessage "Please fill in all required fields (Name, Email, Password)"
       snack_error st, w)
  else if negb (emailRegex_test email) then
    (showMessage "Please enter a valid email address" snack_error st, w)
  else if (String.length password <? 6)%nat then
    (showMessage "Password must be at least 6 characters long" snack_error st, w)
  else if (72 <? String.length password)%nat then
    (showMessage "Password must be 72 characters or less" snack_error st, w)
  else if negb (String.eqb password confirmPassword) then
    (showMessage "Passwords do not match. Please check and try again." snack_error st, w)
  else
    let st := set_form_loading true st in
    match register email password name (Some phone) r w with
    | (Ok _, w') =>
        (set_form_loading false
           (schedule Login
              (showMessage
                 "Registration successful! You can now login once an admin approves your account."
                 snack_success st)), w')
    | (Throw e, w') =>
        let errorMessage :=
          if String.eqb (message_of e) EmptyString then
            "An unexpected error occurred. Please try again."
          else register_error_text (message_of e) in
        (set_form_loading false (showMessage errorMessage snack_error st), w')
    end.

End AuthScreens.

(** the fields an e-mail address is made of, for stating what the pattern
    accepts *)
Definition plain_text (s : string) : Prop := s <> EmptyString /\ all_plain s = true.

(** ** screens/admin/PendingApprovalsScreen.tsx *)

(** The state of the screen, and the alerts it has raised, oldest first. *)
Record ApprovalsState : Type := mkApprovals {
  users : JsValue;
  approvals_loading : bool;
  refreshing : bool;
  processing : option string;
  alerts : list (string * string)
}.

Definition setUsers (v : JsValue) (st : ApprovalsState) : ApprovalsState :=
  mkApprovals v (approvals_loading st) (refreshing st) (processing st) (alerts st).

Definition setProcessing (p : option string) (st : ApprovalsState) : ApprovalsState :=
  mkApprovals (users st) (approvals_loading st) (refreshing st) p (alerts st).

(** [Alert.alert(title, message)] *)
Definition alert (title message : string) (st : ApprovalsState) : ApprovalsState :=
  mkApprovals (users st) (approvals_loading st) (refreshing st) (processing st)
    (alerts st ++ [(title, message)]).

(** [items.filter(user => user.id !== userId)]; [None] when reading [id]
    throws, which it does on an item that is [null] or [undefined] *)
Fixpoint filter_out (userId : string) (items : list JsValue) : option (list JsValue) :=
  match items with
  | [] => Some []
  | item :: rest =>
      match get_prop item "id" with
      | Some id =>
          match filter_out userId rest with
          | Some kept =>
              Some (if negb (strict_eq_string id userId) then item :: kept else kept)
          | None => None
          end
      | None => None
      end
  end.

(** The updater [prev => prev.filter(user => user.id !== userId)]; [None]
    when it throws: [prev] is not an array, or [filter_out] throws. *)
Definition without_user (userId : string) (prev : JsValue) : option JsValue :=
  match prev with
  | JsArray items =>
      match filter_out userId items with
      | Some kept => Some (JsArray kept)
      | None => None
      end
  | _ => None
  end.

Definition approve_request (userId : string) : Request :=
  mkRequest ("/admin/approve-police/" ++ userId) "POST" ∅ None.

Definition reject_request (userId : string) : Request :=
  mkRequest ("/admin/reject-police/" ++ userId) "POST" ∅ None.

(** The screen after [approveUser(userId)], [None] when the updater handed
    to [setUsers] throws as React applies it. *)
Definition approveUser (userId : string) (f_read : bool) (o : HttpOutcome)
    (f_user f_token : bool) (st : ApprovalsState) (w : World)
    : option ApprovalsState * World :=
  let st := setProcessing (Some userId) st in
  match api_request (approve_request userId) f_read o f_user f_token w with
  | (Ok _, w') =>
      match without_user userId (users st) with
      | Some kept =>
          (Some (setProcessing None
                   (alert "Success" "Police user approved successfully"
                      (setUsers kept st))), w')
      | None => (None, w')
      end
  | (Throw _, w') =>
      (Some (setProcessing None (alert "Error" "Failed to approve user" st)), w')
  end.

(** [rejectUser(userId)]: the confirmation is raised on every call;
    [confirmed] tells whether its button [Reject] is pressed, which runs the
    [onPress] handler. *)
Definition rejectUser (userId : string) (confirmed : bool) (f_read : bool)
    (o : HttpOutcome) (f_user f_token : bool) (st : ApprovalsState) (w : World)
    : option ApprovalsState * World :=
  let st :=
    alert "Reject User"
      "Are you sure you want to reject this police user? This action cannot be undone."
      st in
  if confirmed then
    let st := setProcessing (Some userId) st in
    match api_request (reject_request userId) f_read o f_user f_token w with
    | (Ok _, w') =>
        match without_user userId (users st) with
        | Some kept =>
            (Some (setProcessing None
                     (alert "Success" "Police user rejected successfully"
                        (setUsers kept st))), w')
        | None => (None, w')
        end
    | (Throw _, w') =>
        (Some (setProcessing None (alert "Error" "Failed to reject user" st)), w')
    end
  else (Some st, w).

(** [item.id === userId] *)
Definition has_id (userId : string) (item : JsValue) : bool :=
  strict_eq_string (get_prop_opt item "id") userId.

(** ** A runtime whose [JSON.parse] also reads an error body *)

Module DemoDetail.

(** [{"detail":"Invalid credentials"}] *)
Definition detail_text : string :=
  "{" ++ Demo.quoted "detail" ++ ":" ++ Demo.quoted "Invalid credentials" ++ "}".

Definition detail_value : JsValue := JsObject [("detail", JsString "Invalid credentials")].

Definition parse (s : string) : option JsValue :=
  if String.eqb s detail_text then Some detail_value else Demo.parse s.

Definition runtime : Runtime := {|
  JSON_parse := parse;
  JSON_stringify := Demo.stringify;
  encodeURIComponent := Demo.encode;
  ToString := Demo.to_string;
  setItem_nonstring := fun _ => None;
  BASE_URL := "http://127.0.0.1:8000";
  platform := ReactNative
|}.

End DemoDetail.

(** * Properties *)

Ltac unfold_async :=
  cbv [after outcome bind ret throw try_catch finally effect prop json
       getItem setItem removeItem write_item localStorage_removeItem
       setUser setLoading fetch dispatch] in *.

Section Restore.
Context `{Runtime}.

Lemma loadStoredUser_cases f_user f_token w :
  exists v,
    loadStoredUser f_user f_token w
    = (Ok tt, record (EvSetLoading false) (set_loading false
                (record (EvSetUser v) (set_user v w))))
    /\ (v = JsNull \/
        (exists s, f_user = false /\ f_token = false /\
           storage w !! "user" = Some s /\ s <> EmptyString /\
           JSON_parse s = Some v /\ nullish v = false)).
Proof.
  unfold loadStoredUser, truthy_item. unfold_async.
  destruct f_user; [eexists; split; [reflexivity | by left] |].
  destruct f_token; [eexists; split; [reflexivity | by left] |].
  destruct (storage w !! "user") as [s|] eqn:Hs; simpl;
    [| eexists; split; [reflexivity | by left]].
  destruct (String.eqb_spec s EmptyString); simpl;
    [eexists; split; [reflexivity | by left] |].
  destruct (JSON_parse s) as [v|] eqn:Hp;
    [| eexists; split; [reflexivity | by left]].
  destruct v; simpl;
    try (eexists; split; [reflexivity | by left]);
    (eexists; split; [reflexivity | right; exists s; by repeat split]).
Qed.

End Restore.

Section RestoreProperties.
Context `{Runtime}.

(** C10. [restore()] (loadStoredUser) never writes to or clears the
    Credential Store: whatever the store holds (a partial or a malformed
    record included) and whether or not a read fails, the store after it
    equals the store before it, and all it does is one [setUser] followed by
    [setLoading(false)]. *)
Theorem restore_never_writes (f_user f_token : bool) (w : World) :
  storage (after (loadStoredUser f_user f_token) w) = storage w /\
  exists v, trace (after (loadStoredUser f_user f_token) w)
            = (trace w ++ [EvSetUser v; EvSetLoading false])%list.
Proof.
  destruct (loadStoredUser_cases f_user f_token w) as (v & Hrun & _).
  unfold after. rewrite Hrun. simpl. split; [done |].
  exists v. by rewrite <- app_assoc.
Qed.

(** C2, as amended. When the [user] key is absent from the store (the record
    is absent, or only the token is there), and when a store read fails,
    [restore()] sets no user and the Session is Anonymous. *)
Theorem restore_fallback (f_user f_token : bool) (w : World) :
  f_user = true \/ f_token = true \/ storage w !! "user" = None ->
  user (after (loadStoredUser f_user f_token) w) = JsNull /\
  Session_status (after (loadStoredUser f_user f_token) w) = Anonymous.
Proof.
  intros Hcase.
  destruct (loadStoredUser_cases f_user f_token w) as (v & Hrun & Hv).
  assert (v = JsNull) as ->.
  { destruct Hv as [-> | (s & -> & -> & Hs & _)]; [done |].
    destruct Hcase as [? | [? | Hnone]]; try done. congruence. }
  unfold after. rewrite Hrun. done.
Qed.

End RestoreProperties.

Lemma restore_fallback_witness :
  let w := mount {[ "token" := "T" ]} in
  user (after (loadStoredUser (H := Demo.runtime) false false) w) = JsNull /\
  Session_status (after (loadStoredUser (H := Demo.runtime) false false) w) = Anonymous.
Proof.
  apply (restore_fallback (H := Demo.runtime) false false).
  right. right. reflexivity.
Defined.

(** C2, as stated, fails: a store that holds exactly one of the two keys,
    the [user] key with a well-formed record, is restored as Authenticated. *)
Lemma restore_user_only_authenticates :
  let m : gmap string string := {[ "user" := Demo.profile_text ]} in
  m !! "token" = None /\
  is_Some (m !! "user") /\
  Session_status (after (loadStoredUser (H := Demo.runtime) false false) (mount m))
  = Authenticated.
Proof. vm_compute. split; [done | split; [by eexists | done]]. Qed.

Section LoginProperties.
Context `{Runtime}.

Ltac unfold_login := unfold login, token_exchange, profile_fetch_fails in *; unfold_async.

(** C4. When the token exchange succeeds and the profile fetch fails, login
    fails as a whole: it throws, the in-memory state and the Credential Store
    are as before, and the token was used for nothing but the bearer header
    of the [/auth/me] request (no [setItem], no [setUser]). *)
Theorem login_profile_failure (email password : string)
    (r_login r_me : HttpOutcome) (f_user f_token : bool) (w : World)
    (access_token : JsValue) :
  token_exchange r_login = Some access_token ->
  profile_fetch_fails r_me = true ->
  (exists e, outcome (login email password r_login r_me f_user f_token) w = Throw e) /\
  storage (after (login email password r_login r_me f_user f_token) w) = storage w /\
  user (after (login email password r_login r_me f_user f_token) w) = user w /\
  loading (after (login email password r_login r_me f_user f_token) w) = loading w /\
  trace (after (login email password r_login r_me f_user f_token) w)
  = (trace w ++ [EvFetch (login_request email password);
                 EvFetch (me_request access_token)])%list.
Proof.
  intros Hx Hp. unfold_login.
  destruct r_login as [resp|]; [| done].
  destruct (ok resp); [| done]. simpl.
  destruct (JSON_parse (text resp)) as [data|]; [| done].
  rewrite Hx. simpl.
  destruct r_me as [resp'|]; simpl.
  - destruct (ok resp'); simpl in *.
    + destruct (JSON_parse (text resp')) as [userData|]; simpl.
      * destruct userData; try done; simpl;
          rewrite <- app_assoc; eauto 10.
      * rewrite <- app_assoc; eauto 10.
    + rewrite <- app_assoc; eauto 10.
  - rewrite <- app_assoc; eauto 10.
Qed.

(** C5. A login that succeeds has written the pair to the Credential Store
    and only then set the in-memory user: the trace ends with the two
    [setItem] calls followed by [setUser], the store holds the serialized
    form of exactly the user now in memory and the token obtained from the
    exchange, and the Session shows a user. *)
Theorem login_persist_before_announce (email password : string)
    (r_login r_me : HttpOutcome) (f_user f_token : bool) (w : World) :
  outcome (login email password r_login r_me f_user f_token) w = Ok tt ->
  exists access_token token,
    token_exchange r_login = Some access_token /\
    stored_form access_token = Some token /\
    let w' := after (login email password r_login r_me f_user f_token) w in
    trace w' = (trace w ++ [EvFetch (login_request email password);
                            EvFetch (me_request access_token);
                            EvSetItem "user" (JSON_stringify (user w'));
                            EvSetItem "token" token;
                            EvSetUser (user w')])%list /\
    storage w' = <["token" := token]> (<["user" := JSON_stringify (user w')]> (storage w)) /\
    storage w' !! "user" = Some (JSON_stringify (user w')) /\
    storage w' !! "token" = Some token /\
    truthy (user w') = true.
Proof.
  unfold_login. intros Hok.
  destruct r_login as [resp|]; [| done].
  destruct (ok resp); [| done]. simpl in *.
  destruct (JSON_parse (text resp)) as [data|]; [| done]. simpl in *.
  destruct (get_prop data "access_token") as [access_token|]; [| done]. simpl in *.
  destruct r_me as [resp'|]; [| done]. simpl in *.
  destruct (ok resp'); [| done]. simpl in *.
  destruct (JSON_parse (text resp')) as [userData|]; [| done]. simpl in *.
  destruct (get_prop userData "id") as [v1|] eqn:H1; [| done]. simpl in *.
  destruct (get_prop userData "email") as [v2|]; [| done]. simpl in *.
  destruct (get_prop userData "name") as [v3|]; [| done]. simpl in *.
  destruct (get_prop userData "phone") as [v4|]; [| done]. simpl in *.
  destruct (get_prop userData "role") as [v5|]; [| done]. simpl in *.
  destruct (get_prop userData "is_approved") as [v6|]; [| done]. simpl in *.
  destruct (get_prop userData "created_at") as [v7|]; [| done]. simpl in *.
  destruct f_user; [done |]. simpl in *.
  destruct f_token; [done |]. simpl in *.
  destruct (stored_form access_token) as [token|] eqn:Hst; [| done]. simpl in *.
  exists access_token, token. split; [done |]. split; [done |].
  repeat split.
  - by rewrite <- !app_assoc.
  - by rewrite lookup_insert_ne, lookup_insert_eq.
  - by rewrite lookup_insert_eq.
Qed.

End LoginProperties.

Lemma login_profile_failure_witness :
  let run := login (H := Demo.runtime) "a@x.com" "secret" Demo.ok_login NoResponse false false in
  token_exchange (H := Demo.runtime) Demo.ok_login = Some (JsString "T") /\
  (exists e, outcome run (mount ∅) = Throw e) /\
  storage (after run (mount ∅)) = ∅.
Proof.
  split; [reflexivity |].
  destruct (login_profile_failure (H := Demo.runtime) "a@x.com" "secret"
              Demo.ok_login NoResponse false false (mount ∅) (JsString "T"))
    as (He & Hs & _); [reflexivity | reflexivity |].
  split; [exact He | exact Hs].
Defined.

Lemma login_persist_before_announce_witness :
  let run := login (H := Demo.runtime) "a@x.com" "secret" Demo.ok_login Demo.ok_me false false in
  outcome run (mount ∅) = Ok tt /\
  storage (after run (mount ∅)) !! "token" = Some "T".
Proof.
  split; [reflexivity |].
  destruct (login_persist_before_announce (H := Demo.runtime) "a@x.com" "secret"
              Demo.ok_login Demo.ok_me false false (mount ∅))
    as (a & t & Hx & Hst & _ & _ & _ & Ht & _); [reflexivity |].
  vm_compute in Hx. injection Hx as <-.
  vm_compute in Hst. injection Hst as <-.
  exact Ht.
Defined.

Section LogoutRegisterProperties.
Context `{Runtime}.

Lemma delete_pair_twice (m : gmap string string) :
  delete "token" (delete "user" (delete "token" (delete "user" m)))
  = delete "token" (delete "user" m).
Proof.
  apply map_eq. intros k.
  destruct (decide (k = "token")) as [-> | Ht]; [by rewrite !lookup_delete_eq |].
  rewrite !(lookup_delete_ne _ "token" k) by done.
  destruct (decide (k = "user")) as [-> | Hu]; [by rewrite !lookup_delete_eq |].
  by rewrite !lookup_delete_ne.
Qed.

(** C6. [logout()] never throws and always leaves the in-memory user unset,
    also when a removal from the store fails: the Session is never left
    Authenticated, and is Anonymous once the app has finished loading.  When
    no removal fails it removes the [user] key, then the [token] key, and
    only then unsets the user, and the store is left without both keys. *)
Theorem logout_fail_open (f_user f_token : bool) (w : World) :
  outcome (logout f_user f_token) w = Ok tt /\
  user (after (logout f_user f_token) w) = JsNull /\
  Session_status (after (logout f_user f_token) w) <> Authenticated /\
  (loading w = false -> Session_status (after (logout f_user f_token) w) = Anonymous) /\
  (f_user = false -> f_token = false ->
   storage (after (logout f_user f_token) w) = delete "token" (delete "user" (storage w)) /\
   exists rest,
     trace (after (logout f_user f_token) w)
     = (trace w ++ [EvRemoveItem "user"; EvRemoveItem "token"; EvSetUser JsNull]
          ++ rest)%list).
Proof.
  unfold logout, browser_cleanup, Session_status. unfold_async.
  destruct f_user, f_token, platform; simpl;
    repeat split; try done; try (by destruct (loading w)); try (by intros ->);
    try apply delete_pair_twice.
  - exists [EvRemoveItem "user"; EvRemoveItem "token"]. by rewrite <- !app_assoc.
  - exists [EvSetUser JsNull]. by rewrite <- !app_assoc.
  - exists []. by rewrite <- !app_assoc.
Qed.

(** C7. [register] submits one request, to [/auth/register], whose JSON body
    carries the fixed role ['police'], and changes nothing else: the
    in-memory user, the loading flag and the store are as before, whether the
    request succeeds or fails. *)
Theorem register_frame (email password name : string) (phone : option string)
    (r : HttpOutcome) (w : World) :
  (exists fields,
     trace (after (register email password name phone r) w)
     = (trace w ++ [EvFetch (mkRequest (getAuthUrl REGISTER) "POST"
                               {[ "Content-Type" := "application/json" ]}
                               (Some (JSON_stringify (JsObject fields))))])%list /\
     lookup_field "role" fields = JsString "police") /\
  user (after (register email password name phone r) w) = user w /\
  loading (after (register email password name phone r) w) = loading w /\
  storage (after (register email password name phone r) w) = storage w /\
  Session_status (after (register email password name phone r) w) = Session_status w.
Proof.
  unfold register, register_request, Session_status. unfold_async.
  destruct r as [resp|]; simpl; [destruct (ok resp); simpl |];
    (split; [eexists; split; [reflexivity | reflexivity] | done]).
Qed.

End LogoutRegisterProperties.

Lemma logout_fail_open_witness :
  let w := after (loadStoredUser (H := Demo.runtime) false false) (mount Demo.full_store) in
  Session_status w = Authenticated /\
  loading w = false /\
  Session_status (after (logout (H := Demo.runtime) true false) w) = Anonymous /\
  storage (after (logout (H := Demo.runtime) false false) w) = ∅.
Proof.
  split; [reflexivity |]. split; [reflexivity |].
  split.
  - apply (logout_fail_open (H := Demo.runtime) true false). reflexivity.
  - destruct (logout_fail_open (H := Demo.runtime) false false
                (after (loadStoredUser (H := Demo.runtime) false false)
                   (mount Demo.full_store)))
      as (_ & _ & _ & _ & Hclear).
    destruct (Hclear eq_refl eq_refl) as [-> _]. reflexivity.
Defined.

Section PipelineProperties.

Ltac trace_tail := eexists; rewrite <- ?app_assoc; reflexivity.

Ltac unfold_api :=
  unfold api_request, request_interceptor, response_rejected, is_unauthorized in *;
  unfold_async.

(** The response interceptor never touches the in-memory state. *)
Lemma api_request_keeps_memory (config : Request) (f_read : bool) (o : HttpOutcome)
    (f_user f_token : bool) (w : World) :
  user (after (api_request config f_read o f_user f_token) w) = user w /\
  loading (after (api_request config f_read o f_user f_token) w) = loading w.
Proof.
  unfold_api.
  destruct f_read; simpl; [done |].
  destruct (truthy_item (storage w !! "token")); simpl;
    (destruct o as [resp|]; simpl; [| done]);
    (destruct (ok resp); simpl; [done |]);
    (destruct (status resp =? 401); simpl; [| done]);
    destruct f_user, f_token; done.
Qed.

(** A call that is not answered 401 leaves the store as it was. *)
Lemma api_request_keeps_storage (config : Request) (f_read : bool) (o : HttpOutcome)
    (f_user f_token : bool) (w : World) :
  (forall resp, o = Responded resp -> status resp <> 401) ->
  storage (after (api_request config f_read o f_user f_token) w) = storage w.
Proof.
  intros Hne. unfold_api.
  destruct f_read; simpl; [done |].
  destruct (truthy_item (storage w !! "token")); simpl;
    (destruct o as [resp|]; simpl; [| done]);
    (destruct (ok resp); simpl; [done |]);
    (destruct (Z.eqb_spec (status resp) 401) as [He | _]; simpl; [| done]);
    by destruct (Hne resp eq_refl).
Qed.

(** C9, as amended. A call made through the axios instance [api] passes the
    attach stage: the token is read from the Credential Store, whatever the
    in-memory state is; a token that is there and not empty is attached as
    [Authorization: Bearer <token>] to the request that is dispatched; with
    no token, or an empty one, the request is dispatched as it was given;
    and when the read fails nothing is dispatched. *)
Theorem attach_stage (config : Request) (o : HttpOutcome) (f_user f_token : bool)
    (w : World) :
  (forall token, storage w !! "token" = Some token -> token <> EmptyString ->
     exists rest,
       trace (after (api_request config false o f_user f_token) w)
       = (trace w ++
          EvAxios (mkRequest (url config) (method config)
                     (<["Authorization" := ("Bearer " ++ token)%string]> (headers config))
                     (body config)) :: rest)%list) /\
  (storage w !! "token" = None \/ storage w !! "token" = Some EmptyString ->
     exists rest,
       trace (after (api_request config false o f_user f_token) w)
       = (trace w ++ EvAxios config :: rest)%list) /\
  (forall v, trace (after (api_request config false o f_user f_token) (set_user v w))
             = trace (after (api_request config false o f_user f_token) w)) /\
  trace (after (api_request config true o f_user f_token) w) = trace w /\
  outcome (api_request config true o f_user f_token) w = Throw StorageFailure.
Proof.
  unfold_api. simpl.
  repeat split.
  - intros token Htok Hne. rewrite Htok. unfold truthy_item.
    destruct (String.eqb_spec token EmptyString); [done |]. simpl.
    destruct o as [resp|]; simpl; [| trace_tail].
    destruct (ok resp); simpl; [trace_tail |].
    destruct (status resp =? 401); simpl; [| trace_tail].
    destruct f_user; simpl; [trace_tail |].
    destruct f_token; simpl; trace_tail.
  - intros [Htok | Htok]; rewrite Htok; simpl;
      (destruct o as [resp|]; simpl; [| trace_tail]);
      (destruct (ok resp); simpl; [trace_tail |]);
      (destruct (status resp =? 401); simpl; [| trace_tail]);
      (destruct f_user; simpl; [trace_tail |]);
      destruct f_token; simpl; trace_tail.
  - intros v.
    destruct (truthy_item (storage w !! "token")); simpl;
      (destruct o as [resp|]; simpl; [| done]);
      (destruct (ok resp); simpl; [done |]);
      (destruct (status resp =? 401); simpl; [| done]);
      destruct f_user, f_token; done.
Qed.

(** What a 401 does: with no storage failure both keys are removed from the
    store, the error is passed on, and the in-memory user is what it was. *)
Lemma unauthorized_effect (config : Request) (resp : Response) (w : World) :
  status resp = 401 ->
  outcome (api_request config false (Responded resp) false false) w
  = Throw (AxiosError (Some resp)) /\
  storage (after (api_request config false (Responded resp) false false) w)
  = delete "token" (delete "user" (storage w)) /\
  user (after (api_request config false (Responded resp) false false) w) = user w.
Proof.
  destruct resp as [st body]. simpl. intros ->. unfold_api. simpl.
  by destruct (truthy_item (storage w !! "token")).
Qed.

End PipelineProperties.

Lemma attach_stage_witness :
  let w := after (loadStoredUser (H := Demo.runtime) false false) (mount Demo.full_store) in
  storage w !! "token" = Some "T" /\
  exists rest,
    trace (after (api_request Demo.logs_request false Demo.unauthorized false false) w)
    = (trace w ++
       EvAxios (mkRequest "/logs/" "GET" {[ "Authorization" := "Bearer T" ]} None)
       :: rest)%list.
Proof.
  split; [reflexivity |].
  destruct (attach_stage Demo.logs_request Demo.unauthorized false false
              (after (loadStoredUser (H := Demo.runtime) false false)
                 (mount Demo.full_store))) as (Hattach & _).
  apply (Hattach "T"); [reflexivity | discriminate].
Defined.

(** C9, as stated, fails: [login] calls [fetch] itself.  With the token [T]
    in the store, the request it sends to [/auth/login] is the first thing it
    does and carries no [Authorization] header. *)
Lemma login_bypasses_attach_stage :
  let w := mount Demo.full_store in
  storage w !! "token" = Some "T" /\
  exists r rest,
    trace (after (login (H := Demo.runtime) "a@x.com" "secret"
                    Demo.ok_login Demo.ok_me false false) w)
    = EvFetch r :: rest /\
    url r = "http://127.0.0.1:8000/auth/login" /\
    headers r !! "Authorization" = None.
Proof.
  split; [reflexivity |].
  eexists _, _. split; [vm_compute; reflexivity |].
  split; reflexivity.
Qed.

(** C1, at the failing input: the officer of the scenario is logged in, a
    call to [/logs/] is answered 401.  The caller gets the rejection, the
    store has been emptied, and the in-memory user is still set: the Session
    is Authenticated, not Anonymous. *)
Theorem unauthorized_leaves_session_authenticated :
  let w := run (H := Demo.runtime)
             [OpRestore false false;
              OpLogin "a@x.com" "secret" Demo.ok_login Demo.ok_me false false]
             (mount ∅) in
  let call := api_request Demo.logs_request false Demo.unauthorized false false in
  Session_status w = Authenticated /\
  outcome call w = Throw (AxiosError (Some (mkResponse 401 EmptyString))) /\
  store_empty (after call w) = true /\
  user (after call w) = user w /\
  Session_status (after call w) = Authenticated.
Proof. vm_compute. repeat split. Qed.

Section RouterProperties.

(** C8. The Role Router is total on (status, role): Unknown gives the loading
    screen, which has no navigable screen; Anonymous the unauthenticated
    graph, whose screens are Login, Register and WaitingApproval;
    Authenticated with role ['police'] the officer graph;
    Authenticated with role ['admin'] the administrator graph.  Every world
    is routed to one of these four, which are pairwise different, and the
    route depends on nothing but the loading flag, the truthiness of the user
    and its role: changing [is_approved] never changes it. *)
Theorem routing_total (w : World) :
  (Session_status w = Unknown ->
     Router w = LoadingScreen /\ navigable (Router w) = []) /\
  (Session_status w = Anonymous ->
     Router w = unauthenticated_graph /\
     navigable (Router w) = [Login; Register; WaitingApproval]) /\
  (Session_status w = Authenticated ->
     get_prop_opt (user w) "role" = JsString "police" -> Router w = officer_graph) /\
  (Session_status w = Authenticated ->
     get_prop_opt (user w) "role" = JsString "admin" -> Router w = admin_graph) /\
  Router w ∈ [LoadingScreen; unauthenticated_graph; officer_graph; admin_graph] /\
  NoDup [LoadingScreen; unauthenticated_graph; officer_graph; admin_graph] /\
  (forall l u1 u2,
     truthy u1 = truthy u2 ->
     get_prop_opt u1 "role" = get_prop_opt u2 "role" ->
     AppContent l u1 = AppContent l u2) /\
  (forall l u b,
     AppContent l (js_of_User (mkUser (id u) (email u) (name u) (phone u) (role u) b
                                 (created_at u)))
     = AppContent l (js_of_User u)).
Proof.
  unfold Router, Session_status, AppContent, MainNavigator, MainTabs.
  split; [| split; [| split; [| split; [| split; [| split; [| split]]]]]].
  - by destruct (loading w), (truthy (user w)).
  - by destruct (loading w), (truthy (user w)).
  - destruct (loading w), (truthy (user w)); try done. by intros _ ->.
  - destruct (loading w), (truthy (user w)); try done. by intros _ ->.
  - destruct (loading w); [set_solver |].
    destruct (truthy (user w)); [| set_solver].
    destruct (strict_eq_string _ _); set_solver.
  - unfold officer_graph, admin_graph, unauthenticated_graph.
    rewrite !NoDup_cons, !elem_of_cons, !elem_of_nil.
    intuition (try discriminate). apply NoDup_nil_2.
  - intros l u1 u2 Ht Hr. destruct l; [done |]. by rewrite Ht, Hr.
  - intros l u b. done.
Qed.

End RouterProperties.

Lemma routing_total_witness :
  let w := run (H := Demo.runtime)
             [OpRestore false false;
              OpLogin "a@x.com" "secret" Demo.ok_login Demo.ok_me false false]
             (mount ∅) in
  Session_status w = Authenticated /\
  get_prop_opt (user w) "role" = JsString "police" /\
  Router w = officer_graph /\
  Router (mount ∅) = LoadingScreen /\
  Router (after (loadStoredUser (H := Demo.runtime) false false) (mount ∅))
  = unauthenticated_graph.
Proof.
  split; [reflexivity |]. split; [reflexivity |].
  split; [apply routing_total; reflexivity |].
  split; [apply routing_total; reflexivity |].
  apply routing_total. reflexivity.
Defined.

Section PairingProperties.
Context `{Runtime}.

Lemma paired_ext (w w' : World) :
  user w' = user w ->
  storage w' !! "token" = storage w !! "token" ->
  paired w' = paired w.
Proof.
  unfold paired, user_present, token_present. by intros -> ->.
Qed.

(** What a login leaves behind: nothing but, at most, a rewritten [user]
    key; or a truthy user in memory and both keys in the store. *)
Lemma login_effect (email password : string) (r_login r_me : HttpOutcome)
    (f_user f_token : bool) (w : World) :
  let w' := after (login email password r_login r_me f_user f_token) w in
  (user w' = user w /\ storage w' !! "token" = storage w !! "token") \/
  (truthy (user w') = true /\ is_Some (storage w' !! "token")).
Proof.
  unfold login. unfold_async.
  destruct r_login as [resp|]; simpl; [| by left].
  destruct (ok resp); simpl; [| by left].
  destruct (JSON_parse (text resp)) as [data|]; simpl; [| by left].
  destruct (get_prop data "access_token") as [access_token|]; simpl; [| by left].
  destruct r_me as [resp'|]; simpl; [| by left].
  destruct (ok resp'); simpl; [| by left].
  destruct (JSON_parse (text resp')) as [userData|]; simpl; [| by left].
  destruct (get_prop userData "id"); simpl; [| by left].
  destruct (get_prop userData "email"); simpl; [| by left].
  destruct (get_prop userData "name"); simpl; [| by left].
  destruct (get_prop userData "phone"); simpl; [| by left].
  destruct (get_prop userData "role"); simpl; [| by left].
  destruct (get_prop userData "is_approved"); simpl; [| by left].
  destruct (get_prop userData "created_at"); simpl; [| by left].
  destruct f_user; simpl; [by left |].
  destruct f_token; simpl; [left; split; [done | by rewrite lookup_insert_ne] |].
  destruct (stored_form access_token) as [token|]; simpl;
    [| left; split; [done | by rewrite lookup_insert_ne]].
  right. split; [done |]. rewrite lookup_insert_eq. by eexists.
Qed.

Lemma register_effect (email password name : string) (phone : option string)
    (r : HttpOutcome) (w : World) :
  user (after (register email password name phone r) w) = user w /\
  storage (after (register email password name phone r) w) = storage w.
Proof.
  unfold register. unfold_async.
  destruct r as [resp|]; simpl; [by destruct (ok resp) | done].
Qed.

Lemma logout_effect (w : World) :
  user (after (logout false false) w) = JsNull /\
  storage (after (logout false false) w) !! "token" = None.
Proof.
  unfold logout, browser_cleanup. unfold_async.
  destruct platform; simpl; (split; [done |]); by rewrite lookup_delete_eq.
Qed.

Lemma restore_pairs (f_user f_token : bool) (w : World) :
  coherent_store f_user f_token w = true ->
  paired (after (loadStoredUser f_user f_token) w) = true.
Proof.
  unfold coherent_store, loadStoredUser, truthy_item, paired, user_present,
    token_present.
  unfold_async. intros Hc.
  destruct (storage w !! "user") as [s|] eqn:Hs.
  - destruct f_user; [done |]. destruct f_token; [done |]. simpl in *.
    destruct (String.eqb s EmptyString); [by rewrite andb_false_r in Hc |]. simpl in *.
    destruct (JSON_parse s) as [v|]; [| by rewrite andb_false_r in Hc].
    apply andb_prop in Hc as [Hc Hv]. apply andb_prop in Hc as [Hc _].
    destruct v; simpl in *; try done; by rewrite Hc, ?Hv.
  - destruct f_user, f_token; simpl;
      by destruct (bool_decide (is_Some (storage w !! "token"))).
Qed.

Lemma step_paired (op : Op) (w : World) :
  safe op w = true ->
  paired w = true \/ starts_with_restore [op] = true ->
  paired (step op w) = true.
Proof.
  destruct op as [fu ft | e p rl rm fu ft | e p n ph r | fu ft | c fr o fu ft];
    simpl; intros Hsafe Hstart.
  - by apply restore_pairs.
  - destruct Hstart as [Hp | ?]; [| done].
    destruct (login_effect e p rl rm fu ft w) as [[Hu Hs] | [Hu Hs]].
    + by rewrite (paired_ext _ _ Hu Hs).
    + unfold paired, user_present, token_present. rewrite Hu.
      by rewrite bool_decide_eq_true_2.
  - destruct Hstart as [Hp | ?]; [| done].
    destruct (register_effect e p n ph r w) as [Hu Hs].
    rewrite (paired_ext w); [done | done | by rewrite Hs].
  - destruct fu, ft; try done.
    destruct (logout_effect w) as [Hu Hs].
    unfold paired, user_present, token_present. by rewrite Hu, Hs.
  - destruct Hstart as [Hp | ?]; [| done].
    destruct (api_request_keeps_memory c fr o fu ft w) as [Hu _].
    rewrite (paired_ext w); [done | done |].
    rewrite api_request_keeps_storage; [done |].
    intros resp -> He. simpl in Hsafe. apply Z.eqb_eq in He. by rewrite He in Hsafe.
Qed.

Lemma run_paired (ops : list Op) (w : World) :
  paired w = true -> safe_run ops w = true -> paired (run ops w) = true.
Proof.
  revert w. induction ops as [| op ops IH]; intros w Hp Hs; [done |].
  simpl in *. apply andb_prop in Hs as [Hop Hrest].
  apply IH; [| done]. apply step_paired; [done | by left].
Qed.

(** C3, as amended. Starting from a state in which user and token are paired,
    or with a restore, every sequence of restores over a coherent store,
    logins, registrations, logouts during which no removal fails and pipeline
    calls that are not answered 401 ends in a state in which the in-memory
    user is present exactly when the stored token is. *)
Theorem pairing_preserved (ops : list Op) (w : World) :
  paired w = true \/ starts_with_restore ops = true ->
  safe_run ops w = true ->
  paired (run ops w) = true.
Proof.
  intros [Hp | Hr] Hs; [by apply run_paired |].
  destruct ops as [| op ops]; [done |].
  simpl in *. apply andb_prop in Hs as [Hop Hrest].
  apply run_paired; [| done].
  apply step_paired; [done |]. right. by destruct op.
Qed.

End PairingProperties.

Lemma pairing_preserved_witness :
  let ops := [OpRestore false false;
              OpRegister "a@x.com" "secret" "A" None (Responded (mkResponse 201 "{}"));
              OpLogin "a@x.com" "secret" Demo.ok_login Demo.ok_me false false;
              OpApi Demo.logs_request false (Responded (mkResponse 200 "[]")) false false;
              OpLogout false false;
              OpLogin "a@x.com" "secret" Demo.ok_login Demo.ok_me false false] in
  safe_run (H := Demo.runtime) ops (mount Demo.full_store) = true /\
  Session_status (run (H := Demo.runtime) ops (mount Demo.full_store)) = Authenticated /\
  paired (run (H := Demo.runtime) ops (mount Demo.full_store)) = true.
Proof.
  split; [reflexivity |]. split; [reflexivity |].
  apply (pairing_preserved (H := Demo.runtime)); [right; reflexivity | reflexivity].
Defined.

(** C3, as stated, fails: from the empty store, restore, a successful login
    and a logout whose first removal is rejected by the store lead to a state
    with no user in memory and the token still in the store. *)
Lemma logout_failure_breaks_pairing :
  let w := run (H := Demo.runtime)
             [OpRestore false false;
              OpLogin "a@x.com" "secret" Demo.ok_login Demo.ok_me false false;
              OpLogout true false]
             (mount ∅) in
  user_present w = false /\ token_present w = true /\ paired w = false.
Proof. vm_compute. repeat split. Qed.

(** * Further properties of the session controller *)

Set Warnings "-clear-no-such-hyp".

Section RestoreOutcome.
Context `{Runtime}.

(** X1. [loadStoredUser] always resolves and always ends the loading phase,
    whatever the store holds and whichever read fails: after it the Session
    is never Unknown. *)
Theorem restore_completes (f_user f_token : bool) (w : World) :
  outcome (loadStoredUser f_user f_token) w = Ok tt /\
  loading (after (loadStoredUser f_user f_token) w) = false /\
  Session_status (after (loadStoredUser f_user f_token) w) <> Unknown.
Proof.
  destruct (loadStoredUser_cases f_user f_token w) as (v & Hrun & _).
  unfold outcome, after, Session_status. rewrite Hrun. simpl.
  repeat split. by destruct (truthy v).
Qed.

(** X2. [loadStoredUser] restores an Authenticated session exactly when both
    reads succeed and the [user] key holds a non-empty text that
    [JSON.parse] turns into a truthy value; that value is then the user. *)
Theorem restore_authenticates_iff (f_user f_token : bool) (w : World) :
  Session_status (after (loadStoredUser f_user f_token) w) = Authenticated <->
  f_user = false /\ f_token = false /\
  exists s v, storage w !! "user" = Some s /\ s <> EmptyString /\
              JSON_parse s = Some v /\ truthy v = true /\
              user (after (loadStoredUser f_user f_token) w) = v.
Proof.
  unfold loadStoredUser, truthy_item, Session_status. unfold_async.
  destruct f_user; simpl; [naive_solver |].
  destruct f_token; simpl; [naive_solver |].
  destruct (storage w !! "user") as [s|] eqn:Hs; simpl; [| naive_solver].
  destruct (String.eqb_spec s EmptyString) as [-> | Hne]; simpl; [naive_solver |].
  destruct (JSON_parse s) as [v|] eqn:Hp; simpl; [| naive_solver].
  split.
  - intros Ht. split; [done |]. split; [done |]. exists s, v.
    destruct v; simpl in *; try done; repeat split; try done;
      match goal with |- ?b = true => by destruct b end.
  - intros (_ & _ & s' & v' & [= <-] & _ & Hp' & Ht & _).
    rewrite Hp in Hp'. injection Hp' as <-.
    destruct v; simpl in *; try done; by rewrite Ht.
Qed.

End RestoreOutcome.

Lemma restore_authenticates_iff_witness :
  Session_status (after (loadStoredUser (H := Demo.runtime) false false)
                    (mount Demo.full_store)) = Authenticated.
Proof.
  apply (restore_authenticates_iff (H := Demo.runtime) false false).
  split; [reflexivity |]. split; [reflexivity |].
  exists Demo.profile_text, Demo.profile_value.
  split; [reflexivity |]. split; [discriminate |]. repeat split.
Defined.

Section RestoreAfterRestart.
Context `{Runtime}.

Lemma loadStoredUser_restores (w : World) (s : string) (v : JsValue) :
  storage w !! "user" = Some s ->
  s <> EmptyString ->
  JSON_parse s = Some v ->
  truthy v = true ->
  user (after (loadStoredUser false false) w) = v /\
  Session_status (after (loadStoredUser false false) w) = Authenticated.
Proof.
  intros Hs Hne Hp Ht.
  unfold loadStoredUser, truthy_item, Session_status. unfold_async. simpl.
  rewrite Hs. destruct (String.eqb_spec s EmptyString); [done |]. simpl.
  rewrite Hp. simpl.
  destruct v; simpl in *; try done; by rewrite ?Ht.
Qed.

Lemma loadStoredUser_absent (f_user f_token : bool) (w : World) :
  storage w !! "user" = None ->
  user (after (loadStoredUser f_user f_token) w) = JsNull /\
  Session_status (after (loadStoredUser f_user f_token) w) = Anonymous.
Proof.
  intros Hnone.
  destruct (loadStoredUser_cases f_user f_token w) as (v & Hrun & Hv).
  assert (v = JsNull) as ->.
  { destruct Hv as [-> | (s & _ & _ & Hs & _)]; [done | congruence]. }
  unfold after. by rewrite Hrun.
Qed.

End RestoreAfterRestart.

Section LoginOutcome.
Context `{Runtime}.

(** X8. What [login] and [register] hand to [new Error] after a refused
    exchange: the [detail] of the answer when the body is JSON and its
    [detail] is truthy, and the default text in every other case (the body
    is not JSON, [detail] cannot be read, or it is falsy).  When [detail] is
    a non-empty string, [error.message] is that string; in the default cases
    it is the default text. *)
Theorem error_message_cases (d body : string) :
  (forall v detail,
     JSON_parse body = Some v -> get_prop v "detail" = Some detail ->
     truthy detail = true ->
     error_message d body = detail) /\
  (forall v s engine_message,
     JSON_parse body = Some v -> get_prop v "detail" = Some (JsString s) ->
     s <> EmptyString ->
     message_of engine_message (Error (error_message d body)) = s) /\
  (JSON_parse body = None \/
   (exists v, JSON_parse body = Some v /\
      (get_prop v "detail" = None \/
       exists detail, get_prop v "detail" = Some detail /\ truthy detail = false)) ->
   error_message d body = JsString d /\
   forall engine_message, message_of engine_message (Error (error_message d body)) = d).
Proof.
  unfold error_message, js_or, message_of. split; [| split].
  - intros v detail -> -> Ht. by rewrite Ht.
  - intros v s engine_message -> -> Hs. simpl.
    by destruct (String.eqb_spec s EmptyString).
  - intros [-> | (v & -> & [-> | (detail & -> & Ht)])]; [done | done |].
    by rewrite Ht.
Qed.

(** X6. When the token exchange is turned down (no answer, or a status outside
    2xx), [login] stops there: it throws, with the message of the answer in
    the second case, [/auth/me] is never requested, and the store and the
    in-memory state are as before. *)
Theorem login_exchange_rejected (email password : string)
    (r_login r_me : HttpOutcome) (f_user f_token : bool) (w : World) :
  match r_login with
  | Responded resp => ok resp = false
  | NoResponse => True
  end ->
  outcome (login email password r_login r_me f_user f_token) w
  = Throw (match r_login with
           | Responded resp => Error (error_message "Login failed" (text resp))
           | NoResponse => NetworkFailure
           end) /\
  trace (after (login email password r_login r_me f_user f_token) w)
  = (trace w ++ [EvFetch (login_request email password)])%list /\
  storage (after (login email password r_login r_me f_user f_token) w) = storage w /\
  user (after (login email password r_login r_me f_user f_token) w) = user w /\
  loading (after (login email password r_login r_me f_user f_token) w) = loading w.
Proof.
  unfold login. unfold_async.
  destruct r_login as [resp|]; simpl; [| done].
  by intros ->.
Qed.

(** X7. When both exchanges succeed and the [user] key is written but the write
    of the [token] key is rejected, [login] throws with the store already
    changed: the [user] key holds the new record, the [token] key is what it
    was, and the in-memory user is untouched. *)
Theorem login_partial_persistence (email password : string)
    (r_login r_me : HttpOutcome) (f_token : bool) (w : World)
    (access_token : JsValue) :
  token_exchange r_login = Some access_token ->
  profile_fetch_fails r_me = false ->
  f_token = true \/ stored_form access_token = None ->
  outcome (login email password r_login r_me false f_token) w = Throw StorageFailure /\
  user (after (login email password r_login r_me false f_token) w) = user w /\
  storage (after (login email password r_login r_me false f_token) w) !! "token"
  = storage w !! "token" /\
  exists u,
    storage (after (login email password r_login r_me false f_token) w)
    = <["user" := JSON_stringify u]> (storage w) /\
    trace (after (login email password r_login r_me false f_token) w)
    = (trace w ++ [EvFetch (login_request email password);
                   EvFetch (me_request access_token);
                   EvSetItem "user" (JSON_stringify u)])%list.
Proof.
  unfold login, token_exchange, profile_fetch_fails. unfold_async.
  intros Hx Hp Hw.
  destruct r_login as [resp|]; [| done].
  destruct (ok resp); [| done]. simpl in *.
  destruct (JSON_parse (text resp)) as [data|]; [| done]. simpl in *.
  rewrite Hx. simpl.
  destruct r_me as [resp'|]; [| done]. simpl in *.
  destruct (ok resp'); [| done]. simpl in *.
  destruct (JSON_parse (text resp')) as [userData|]; [| done]. simpl in *.
  assert (exists b, (if f_token then None else stored_form access_token) = b
                    /\ b = None) as (b & Hb & ->).
  { destruct Hw as [-> | ->]; eexists; split; try done. by destruct f_token. }
  destruct userData; try done; simpl.
  all: destruct f_token; simpl in *; rewrite ?Hb; simpl.
  all: split; [done |]; split; [done |]; split; [by rewrite lookup_insert_ne |].
  all: eexists; split; [reflexivity | by rewrite <- !app_assoc].
Qed.

(** X3. A session survives a restart: after a login that succeeded, a restart
    followed by [loadStoredUser] makes the user what [JSON.parse] returns
    for the stored record, and the Session is Authenticated again. *)
Theorem login_survives_restart (email password : string)
    (r_login r_me : HttpOutcome) (f_user f_token : bool) (w : World) (v : JsValue) :
  let w' := after (login email password r_login r_me f_user f_token) w in
  outcome (login email password r_login r_me f_user f_token) w = Ok tt ->
  JSON_stringify (user w') <> EmptyString ->
  JSON_parse (JSON_stringify (user w')) = Some v ->
  truthy v = true ->
  user (after (loadStoredUser false false) (restart w')) = v /\
  Session_status (after (loadStoredUser false false) (restart w')) = Authenticated.
Proof.
  intros w' Hok Hne Hparse Ht.
  assert (storage (restart w') !! "user" = Some (JSON_stringify (user w'))) as Hs.
  { subst w'. revert Hok. clear. unfold login. unfold_async. intros Hok.
    repeat (case_match; simplify_eq/=; try done).
    by rewrite lookup_insert_ne, lookup_insert_eq. }
  by apply (loadStoredUser_restores _ (JSON_stringify (user w'))).
Qed.

End LoginOutcome.

Lemma error_message_cases_witness :
  error_message (H := DemoDetail.runtime) "Login failed" DemoDetail.detail_text
  = JsString "Invalid credentials" /\
  message_of (H := DemoDetail.runtime) (fun _ => "Network request failed")
    (Error (error_message (H := DemoDetail.runtime) "Login failed"
              DemoDetail.detail_text))
  = "Invalid credentials" /\
  error_message (H := DemoDetail.runtime) "Login failed" "null" = JsString "Login failed".
Proof.
  destruct (error_message_cases (H := DemoDetail.runtime) "Login failed"
              DemoDetail.detail_text) as (Hdetail & Hmessage & _).
  destruct (error_message_cases (H := DemoDetail.runtime) "Login failed" "null")
    as (_ & _ & Hdefault).
  split; [| split].
  - apply (Hdetail DemoDetail.detail_value); reflexivity.
  - apply (Hmessage DemoDetail.detail_value); [reflexivity | reflexivity | discriminate].
  - apply Hdefault. right. exists JsNull. split; [reflexivity |]. by left.
Defined.

Lemma login_exchange_rejected_witness :
  let attempt := login (H := Demo.runtime) "a@x.com" "wrong"
                   (Responded (mkResponse 401 "null")) Demo.ok_me false false in
  outcome attempt (mount ∅) = Throw (Error (JsString "Login failed")) /\
  storage (after attempt (mount ∅)) = ∅.
Proof.
  destruct (login_exchange_rejected (H := Demo.runtime) "a@x.com" "wrong"
              (Responded (mkResponse 401 "null")) Demo.ok_me false false (mount ∅))
    as (Ho & _ & Hs & _); [reflexivity |].
  split; [exact Ho | exact Hs].
Defined.

Lemma login_partial_persistence_witness :
  let attempt := login (H := Demo.runtime) "a@x.com" "secret"
                   Demo.ok_login Demo.ok_me false true in
  outcome attempt (mount ∅) = Throw StorageFailure /\
  user (after attempt (mount ∅)) = JsNull /\
  storage (after attempt (mount ∅)) !! "token" = None /\
  storage (after attempt (mount ∅)) !! "user" = Some Demo.profile_text.
Proof.
  destruct (login_partial_persistence (H := Demo.runtime) "a@x.com" "secret"
              Demo.ok_login Demo.ok_me true (mount ∅) (JsString "T"))
    as (Ho & Hu & Ht & _); [reflexivity | reflexivity | by left |].
  split; [exact Ho |]. split; [exact Hu |]. split; [exact Ht | reflexivity].
Defined.

Lemma login_survives_restart_witness :
  let w' := after (login (H := Demo.runtime) "a@x.com" "secret"
                     Demo.ok_login Demo.ok_me false false) (mount ∅) in
  user (after (loadStoredUser (H := Demo.runtime) false false) (restart w'))
  = Demo.profile_value /\
  Session_status (after (loadStoredUser (H := Demo.runtime) false false) (restart w'))
  = Authenticated.
Proof.
  apply (login_survives_restart (H := Demo.runtime) "a@x.com" "secret"
           Demo.ok_login Demo.ok_me false false (mount ∅) Demo.profile_value);
    [reflexivity | discriminate | reflexivity | reflexivity].
Defined.

Section InvalidationOutcome.
Context `{Runtime}.

(** X4. After a [logout] during which no removal failed, the next start of the
    app restores no session, whether or not its reads fail. *)
Theorem logout_then_restart_anonymous (f_user f_token : bool) (w : World) :
  let w' := restart (after (logout false false) w) in
  user (after (loadStoredUser f_user f_token) w') = JsNull /\
  Session_status (after (loadStoredUser f_user f_token) w') = Anonymous.
Proof.
  apply loadStoredUser_absent.
  unfold logout, browser_cleanup. unfold_async.
  destruct platform; simpl;
    repeat ((rewrite lookup_delete_ne by done) || rewrite lookup_delete_eq); done.
Qed.

(** X5. A 401 whose two removals succeed ends the stored session: the next start
    of the app restores no session, whatever the in-memory state was when
    the 401 arrived. *)
Theorem unauthorized_then_restart_anonymous (config : Request) (resp : Response)
    (f_user f_token : bool) (w : World) :
  status resp = 401 ->
  let w' := restart (after (api_request config false (Responded resp) false false) w) in
  user (after (loadStoredUser f_user f_token) w') = JsNull /\
  Session_status (after (loadStoredUser f_user f_token) w') = Anonymous.
Proof.
  intros Hst w'. apply loadStoredUser_absent. subst w'.
  destruct (unauthorized_effect config resp w Hst) as (_ & Hs & _).
  unfold restart. simpl. rewrite Hs.
  by rewrite lookup_delete_ne, lookup_delete_eq.
Qed.

(** X13. When a removal is rejected, [logout] still unsets the user, and the
    store keeps what was not removed before the failure: everything when the
    first removal fails, everything but the [user] key when the second
    does. *)
Theorem logout_partial_failure (f_token : bool) (w : World) :
  storage (after (logout true f_token) w) = storage w /\
  storage (after (logout false true) w) = delete "user" (storage w) /\
  storage (after (logout false true) w) !! "token" = storage w !! "token" /\
  user (after (logout true f_token) w) = JsNull /\
  user (after (logout false true) w) = JsNull.
Proof.
  unfold logout. unfold_async. simpl.
  repeat split. by rewrite lookup_delete_ne.
Qed.

End InvalidationOutcome.

Lemma unauthorized_then_restart_anonymous_witness :
  let w := after (loadStoredUser (H := Demo.runtime) false false) (mount Demo.full_store) in
  let w' := restart (after (api_request Demo.logs_request false Demo.unauthorized
                              false false) w) in
  Session_status w = Authenticated /\
  Session_status (after (loadStoredUser (H := Demo.runtime) false false) w') = Anonymous.
Proof.
  split; [reflexivity |].
  apply (unauthorized_then_restart_anonymous (H := Demo.runtime) Demo.logs_request
           (mkResponse 401 EmptyString) false false).
  reflexivity.
Defined.

Section PipelineOutcome.

Ltac unfold_pipeline :=
  unfold api_request, request_interceptor, response_rejected, is_unauthorized in *;
  unfold_async.

(** X9. An answer other than 401 passes through the pipeline unmodified: a 2xx
    answer is what the call resolves to, any other answer and the absence of
    one is what it rejects with; the request is dispatched once, and neither
    the store nor the in-memory state changes. *)
Theorem api_passthrough (config : Request) (o : HttpOutcome) (f_user f_token : bool)
    (w : World) :
  answered_401 o = false ->
  outcome (api_request config false o f_user f_token) w
  = match o with
    | Responded resp => if ok resp then Ok resp else Throw (AxiosError (Some resp))
    | NoResponse => Throw (AxiosError None)
    end /\
  trace (after (api_request config false o f_user f_token) w)
  = (trace w ++ [EvAxios (attached (storage w !! "token") config)])%list /\
  storage (after (api_request config false o f_user f_token) w) = storage w /\
  user (after (api_request config false o f_user f_token) w) = user w /\
  loading (after (api_request config false o f_user f_token) w) = loading w.
Proof.
  unfold answered_401, attached. unfold_pipeline. simpl. intros Hne.
  destruct (truthy_item (storage w !! "token")); simpl;
    (destruct o as [resp|]; simpl; [| done]);
    (destruct (ok resp); simpl; [done |]);
    by rewrite Hne.
Qed.

(** X10. When a removal is rejected while a 401 is handled, the caller gets the
    storage error in place of the 401, and the store keeps what was not
    removed before the failure: both keys when the first removal fails, the
    [token] key when the second does. *)
Theorem unauthorized_storage_failure (config : Request) (resp : Response)
    (f_token : bool) (w : World) :
  status resp = 401 ->
  outcome (api_request config false (Responded resp) true f_token) w
  = Throw StorageFailure /\
  storage (after (api_request config false (Responded resp) true f_token) w)
  = storage w /\
  outcome (api_request config false (Responded resp) false true) w
  = Throw StorageFailure /\
  storage (after (api_request config false (Responded resp) false true) w)
  = delete "user" (storage w).
Proof.
  destruct resp as [st body]. simpl. intros ->. unfold_pipeline. simpl.
  by destruct (truthy_item (storage w !! "token")).
Qed.

(** X11. The interceptor replaces an [Authorization] header the caller set
    itself by the stored token, and leaves every other header, the url, the
    method and the body as they were; without a stored token the request,
    the caller's own [Authorization] header included, is left as it is. *)
Theorem attach_overrides (config : Request) (w : World) :
  (forall token, storage w !! "token" = Some token -> token <> EmptyString ->
     exists config',
       request_interceptor false config w = (Ok config', w) /\
       headers config' !! "Authorization" = Some ("Bearer " ++ token) /\
       (forall k, k <> "Authorization" -> headers config' !! k = headers config !! k) /\
       url config' = url config /\ method config' = method config /\
       body config' = body config) /\
  (storage w !! "token" = None ->
     request_interceptor false config w = (Ok config, w)).
Proof.
  unfold request_interceptor, truthy_item. unfold_async. simpl. split.
  - intros token -> Hne. destruct (String.eqb_spec token EmptyString); [done |].
    eexists. split; [reflexivity |]. simpl.
    split; [by rewrite lookup_insert_eq |].
    split; [| done]. intros k Hk. by rewrite lookup_insert_ne.
  - by intros ->.
Qed.

End PipelineOutcome.

Lemma api_passthrough_witness :
  let w := after (loadStoredUser (H := Demo.runtime) false false) (mount Demo.full_store) in
  let call := api_request Demo.logs_request false
                (Responded (mkResponse 500 "oops")) false false in
  outcome call w = Throw (AxiosError (Some (mkResponse 500 "oops"))) /\
  storage (after call w) = storage w /\
  user (after call w) = user w.
Proof.
  destruct (api_passthrough Demo.logs_request (Responded (mkResponse 500 "oops"))
              false false
              (after (loadStoredUser (H := Demo.runtime) false false)
                 (mount Demo.full_store)))
    as (Ho & _ & Hs & Hu & _); [reflexivity |].
  split; [exact Ho |]. split; [exact Hs | exact Hu].
Defined.

Lemma unauthorized_storage_failure_witness :
  let w := after (loadStoredUser (H := Demo.runtime) false false) (mount Demo.full_store) in
  outcome (api_request Demo.logs_request false Demo.unauthorized true false) w
  = Throw StorageFailure /\
  storage (after (api_request Demo.logs_request false Demo.unauthorized true false) w)
  = Demo.full_store.
Proof.
  destruct (unauthorized_storage_failure Demo.logs_request (mkResponse 401 EmptyString)
              false
              (after (loadStoredUser (H := Demo.runtime) false false)
                 (mount Demo.full_store)))
    as (Ho & Hs & _); [reflexivity |].
  split; [exact Ho | exact Hs].
Defined.

Lemma attach_overrides_witness :
  let config := mkRequest "/logs/" "GET" {[ "Authorization" := "Bearer mine" ]} None in
  exists config',
    request_interceptor false config (mount Demo.full_store)
    = (Ok config', mount Demo.full_store) /\
    headers config' !! "Authorization" = Some "Bearer T".
Proof.
  destruct (attach_overrides
              (mkRequest "/logs/" "GET" {[ "Authorization" := "Bearer mine" ]} None)
              (mount Demo.full_store)) as [Hset _].
  destruct (Hset "T") as (config' & Hrun & Hauth & _); [reflexivity | discriminate |].
  exists config'. split; [exact Hrun | exact Hauth].
Defined.

Section RegisterOutcome.
Context `{Runtime}.

(** X12. [register] resolves exactly when the server answers with a status in
    2xx; otherwise it throws the message of the answer, or the network
    failure when there was no answer. *)
Theorem register_resolves_iff (email password name : string) (phone : option string)
    (r : HttpOutcome) (w : World) :
  (outcome (register email password name phone r) w = Ok tt <->
   exists resp, r = Responded resp /\ ok resp = true) /\
  (forall resp, r = Responded resp -> ok resp = false ->
     outcome (register email password name phone r) w
     = Throw (Error (error_message "Registration failed" (text resp)))) /\
  (r = NoResponse ->
     outcome (register email password name phone r) w = Throw NetworkFailure).
Proof.
  unfold register. unfold_async.
  destruct r as [resp|]; simpl.
  - destruct (ok resp) eqn:Hok; simpl.
    + split; [| split; [| done]].
      * split; [eauto | done].
      * intros resp' [= <-]. congruence.
    + split; [| split; [| done]].
      * split; [done | intros (resp' & [= <-] & ?); congruence].
      * by intros resp' [= <-] _.
  - split; [| done]. split; [done | by intros (? & ? & _)].
Qed.

End RegisterOutcome.

Lemma register_resolves_iff_witness :
  outcome (register (H := Demo.runtime) "a@x.com" "secret" "A" None
             (Responded (mkResponse 201 "{}"))) (mount ∅) = Ok tt.
Proof.
  apply (register_resolves_iff (H := Demo.runtime)).
  exists (mkResponse 201 "{}"). split; reflexivity.
Defined.

Section RunInvariants.
Context `{Runtime}.

Lemma step_loading (op : Op) (w : World) :
  loading w = false -> loading (step op w) = false.
Proof.
  intros Hl. destruct op as [fu ft | e p rl rm fu ft | e p n ph r | fu ft | c fr o fu ft];
    simpl.
  - destruct (loadStoredUser_cases fu ft w) as (v & Hrun & _).
    unfold after. by rewrite Hrun.
  - unfold login. unfold_async. by repeat (case_match; simplify_eq/=; try done).
  - unfold register. unfold_async. by repeat (case_match; simplify_eq/=; try done).
  - unfold logout, browser_cleanup. unfold_async.
    by repeat (case_match; simplify_eq/=; try done).
  - by destruct (api_request_keeps_memory c fr o fu ft w) as [_ ->].
Qed.

(** X14. No operation of the session controller or of the pipeline brings the
    loading phase back: once [loading] is false it stays false, so the
    Session is never Unknown again. *)
Theorem loading_never_returns (ops : list Op) (w : World) :
  loading w = false ->
  loading (run ops w) = false /\ Session_status (run ops w) <> Unknown.
Proof.
  intros Hl.
  assert (loading (run ops w) = false) as Hr.
  { revert w Hl. induction ops as [| op ops IH]; intros w Hl; [done |].
    simpl. apply IH. by apply step_loading. }
  split; [done |]. unfold Session_status. rewrite Hr. by destruct (truthy _).
Qed.

Lemma step_foreign_key (op : Op) (w : World) (k : string) :
  k <> "user" -> k <> "token" -> storage (step op w) !! k = storage w !! k.
Proof.
  intros Hu Ht.
  destruct op as [fu ft | e p rl rm fu ft | e p n ph r | fu ft | c fr o fu ft]; simpl.
  - destruct (loadStoredUser_cases fu ft w) as (v & Hrun & _).
    unfold after. by rewrite Hrun.
  - unfold login. unfold_async.
    repeat (case_match; simplify_eq/=; try done);
      by rewrite ?lookup_insert_ne by done.
  - unfold register. unfold_async. by repeat (case_match; simplify_eq/=; try done).
  - unfold logout, browser_cleanup. unfold_async.
    repeat (case_match; simplify_eq/=; try done);
      by rewrite ?lookup_delete_ne by done.
  - unfold api_request, request_interceptor, response_rejected. unfold_async.
    repeat (case_match; simplify_eq/=; try done);
      by rewrite ?lookup_delete_ne by done.
Qed.

(** X15. The session controller and the pipeline touch two keys of AsyncStorage
    and no other: whatever else is stored there is the same after any
    sequence of operations, failing ones included. *)
Theorem foreign_keys_untouched (ops : list Op) (w : World) (k : string) :
  k <> "user" -> k <> "token" -> storage (run ops w) !! k = storage w !! k.
Proof.
  intros Hu Ht. revert w. induction ops as [| op ops IH]; intros w; [done |].
  simpl. rewrite IH. by apply step_foreign_key.
Qed.

End RunInvariants.

Lemma loading_never_returns_witness :
  let ops := [OpLogin "a@x.com" "secret" Demo.ok_login Demo.ok_me false false;
              OpApi Demo.logs_request false Demo.unauthorized false false;
              OpLogout true false] in
  let w := after (loadStoredUser (H := Demo.runtime) false false) (mount ∅) in
  loading (run (H := Demo.runtime) ops w) = false /\
  Session_status (run (H := Demo.runtime) ops w) <> Unknown.
Proof.
  apply (loading_never_returns (H := Demo.runtime)). reflexivity.
Defined.

Lemma foreign_keys_untouched_witness :
  let ops := [OpRestore false false;
              OpLogin "a@x.com" "secret" Demo.ok_login Demo.ok_me false false;
              OpApi Demo.logs_request false Demo.unauthorized false false;
              OpLogout false false] in
  storage (run (H := Demo.runtime) ops (mount {[ "theme" := "dark" ]})) !! "theme"
  = Some "dark".
Proof.
  cbv zeta.
  rewrite (foreign_keys_untouched (H := Demo.runtime)); [reflexivity | discriminate | discriminate].
Defined.

Section LoginRouting.
Context `{Runtime}.

(** X16. After a login that succeeded, with the loading phase over, the router
    shows the main navigator, with the tabs of the role that [/auth/me]
    returned: the administrator tabs for ['admin'], the officer tabs for
    anything else. *)
Theorem login_routes_by_role (email password : string)
    (r_login r_me : HttpOutcome) (f_user f_token : bool) (w : World) :
  outcome (login email password r_login r_me f_user f_token) w = Ok tt ->
  loading w = false ->
  exists resp userData,
    r_me = Responded resp /\ JSON_parse (text resp) = Some userData /\
    Session_status (after (login email password r_login r_me f_user f_token) w)
    = Authenticated /\
    Router (after (login email password r_login r_me f_user f_token) w)
    = if strict_eq_string (get_prop_opt userData "role") "admin"
      then admin_graph else officer_graph.
Proof.
  unfold login, Router, Session_status, AppContent, MainNavigator, MainTabs,
    admin_graph, officer_graph, get_prop_opt.
  unfold_async. intros Hok Hl.
  destruct r_login as [resp|]; [| done].
  destruct (ok resp); [| done]. simpl in *.
  destruct (JSON_parse (text resp)) as [data|]; [| done]. simpl in *.
  destruct (get_prop data "access_token") as [access_token|]; [| done]. simpl in *.
  destruct r_me as [resp'|]; [| done]. simpl in *.
  destruct (ok resp'); [| done]. simpl in *.
  destruct (JSON_parse (text resp')) as [userData|] eqn:Hp; [| done]. simpl in *.
  exists resp', userData. split; [done |]. split; [done |].
  destruct (get_prop userData "id") as [v1|]; [| done]. simpl in *.
  destruct (get_prop userData "email") as [v2|]; [| done]. simpl in *.
  destruct (get_prop userData "name") as [v3|]; [| done]. simpl in *.
  destruct (get_prop userData "phone") as [v4|]; [| done]. simpl in *.
  destruct (get_prop userData "role") as [v5|]; [| done]. simpl in *.
  destruct (get_prop userData "is_approved") as [v6|]; [| done]. simpl in *.
  destruct (get_prop userData "created_at") as [v7|]; [| done]. simpl in *.
  destruct f_user; [done |]. simpl in *.
  destruct f_token; [done |]. simpl in *.
  destruct (stored_form access_token) as [token|]; [| done]. simpl in *.
  rewrite Hl. split; [done |].
  by destruct (strict_eq_string v5 "admin").
Qed.

End LoginRouting.

Lemma login_routes_by_role_witness :
  let w := after (loadStoredUser (H := Demo.runtime) false false) (mount ∅) in
  Router (after (login (H := Demo.runtime) "a@x.com" "secret"
                   Demo.ok_login Demo.ok_me false false) w) = officer_graph.
Proof.
  destruct (login_routes_by_role (H := Demo.runtime) "a@x.com" "secret"
              Demo.ok_login Demo.ok_me false false
              (after (loadStoredUser (H := Demo.runtime) false false) (mount ∅)))
    as (resp & userData & Hr & Hp & _ & Hroute); [reflexivity | reflexivity |].
  injection Hr as <-. vm_compute in Hp. injection Hp as <-. exact Hroute.
Defined.

(** * config/api.ts *)

Section BaseUrl.

Lemma isLanIp_table (rest : string) :
  forallb (fun '(a, b) =>
             Bool.eqb (isLanIp (decimal a ++ "." ++ decimal b ++ "." ++ rest))
                      (private_range a b))
          (list_prod (seq 0 256) (seq 0 256)) = true.
Proof. vm_compute. reflexivity. Qed.

Lemma decimal_table (rest : string) :
  forallb (fun a => match decimal a ++ rest with
                    | String c _ => is_digit c
                    | EmptyString => false
                    end)
          (seq 0 256) = true.
Proof. vm_compute. reflexivity. Qed.

Lemma isLanIp_quad (a b : nat) (rest : string) :
  (a < 256)%nat -> (b < 256)%nat ->
  isLanIp (decimal a ++ "." ++ decimal b ++ "." ++ rest) = private_range a b.
Proof.
  intros Ha Hb.
  assert (In (a, b) (list_prod (seq 0 256) (seq 0 256))) as Hin
    by (apply in_prod; apply in_seq; lia).
  apply Bool.eqb_prop.
  exact (proj1 (forallb_forall _ _) (isLanIp_table rest) (a, b) Hin).
Qed.

(** X17. For a host name in dotted-quad form, the base URL is the host itself,
    on port 8000, exactly when its first two numbers put it in one of the
    private ranges 10/8, 172.16/12 and 192.168/16; for every other address
    it is the loopback address. *)
Theorem detectBaseUrl_dotted_quad (a b c d : nat) :
  (a < 256)%nat -> (b < 256)%nat ->
  detectBaseUrl (Some (dotted_quad a b c d))
  = if private_range a b
    then "http://" ++ dotted_quad a b c d ++ ":8000"
    else "http://127.0.0.1:8000".
Proof.
  intros Ha Hb. unfold detectBaseUrl, truthy_item, dotted_quad.
  set (rest := decimal c ++ "." ++ decimal d).
  pose proof (isLanIp_quad a b rest Ha Hb) as Hlan.
  assert (In a (seq 0 256)) as Hin by (apply in_seq; lia).
  pose proof (proj1 (forallb_forall _ _)
                (decimal_table ("." ++ decimal b ++ "." ++ rest)) a Hin) as Hfirst.
  cbv beta in Hfirst.
  set (host := decimal a ++ "." ++ decimal b ++ "." ++ rest) in *.
  clearbody host. clear Hin.
  destruct (String.eqb_spec host EmptyString) as [-> | _]; [done |].
  destruct (String.eqb_spec host "localhost") as [-> | _]; [done |].
  destruct (String.eqb_spec host "127.0.0.1") as [-> | _]; simpl.
  - change (isLanIp "127.0.0.1") with false in Hlan. by rewrite <- Hlan.
  - by rewrite Hlan.
Qed.

End BaseUrl.

Lemma detectBaseUrl_dotted_quad_witness :
  detectBaseUrl (Some "192.168.1.20") = "http://192.168.1.20:8000" /\
  detectBaseUrl (Some "172.32.0.1") = "http://127.0.0.1:8000".
Proof.
  split.
  - apply (detectBaseUrl_dotted_quad 192 168 1 20); lia.
  - apply (detectBaseUrl_dotted_quad 172 32 0 1); lia.
Defined.

(** * navigation/MainNavigator.tsx *)

(** X18. Every tab that [MainTabs] renders has an icon of its own: the switch of
    [tabBarIcon] never takes its default branch for one of them, and no two
    tabs of a bar share an icon. *)
Theorem tab_icons (user : JsValue) :
  (forall s, s ∈ MainTabs user -> tabBarIcon user (screen_name s) <> "help") /\
  NoDup (map (fun s => tabBarIcon user (screen_name s)) (MainTabs user)).
Proof.
  unfold MainTabs, tabBarIcon.
  destruct (strict_eq_string (get_prop_opt user "role") "admin"); split.
  - intros s Hs. repeat (apply elem_of_cons in Hs as [-> | Hs]; [done |]).
    by apply elem_of_nil in Hs.
  - simpl. rewrite !NoDup_cons, !elem_of_cons, !elem_of_nil.
    intuition (try discriminate). apply NoDup_nil_2.
  - intros s Hs. repeat (apply elem_of_cons in Hs as [-> | Hs]; [done |]).
    by apply elem_of_nil in Hs.
  - simpl. rewrite !NoDup_cons, !elem_of_cons, !elem_of_nil.
    intuition (try discriminate). apply NoDup_nil_2.
Qed.

Lemma tab_icons_witness :
  tabBarIcon Demo.profile_value (screen_name Upload) <> "help".
Proof.
  apply tab_icons. vm_compute. set_solver.
Defined.

(** * screens/auth *)

Section EmailPattern.

Lemma append_cons (c : ascii) (x y : string) : String c x ++ y = String c (x ++ y).
Proof. reflexivity. Qed.

Lemma append_empty (y : string) : EmptyString ++ y = y.
Proof. reflexivity. Qed.

Ltac push_append := rewrite ?append_cons, ?append_empty.

Lemma all_plain_app (x y : string) :
  all_plain (x ++ y) = all_plain x && all_plain y.
Proof.
  induction x as [| c x IH]; push_append; simpl; [done |].
  rewrite IH. by destruct (plain c).
Qed.

Lemma plain_not_sign (c : ascii) : plain c = true -> Ascii.eqb c "@" = false.
Proof.
  unfold plain. intros Hp. apply andb_prop in Hp as [_ Hp].
  by destruct (Ascii.eqb c "@").
Qed.

Lemma split_at_sign_inv (s before behind : string) :
  split_at_sign s = Some (before, behind) -> s = before ++ String "@" behind.
Proof.
  revert before. induction s as [| c s IH]; intros before; simpl; [done |].
  destruct (Ascii.eqb_spec c "@") as [-> | _].
  - by intros [= <- <-].
  - destruct (split_at_sign s) as [[b' d']|]; [| done].
    intros [= <- <-]. push_append. by rewrite (IH b' eq_refl).
Qed.

Lemma split_at_sign_app (a behind : string) :
  all_plain a = true -> split_at_sign (a ++ String "@" behind) = Some (a, behind).
Proof.
  induction a as [| c a IH]; push_append; simpl; [done |].
  intros Hp. apply andb_prop in Hp as [Hc Ha].
  by rewrite (plain_not_sign c Hc), (IH Ha).
Qed.

Lemma dot_then_more_inv (s : string) :
  dot_then_more s = true ->
  exists x y, s = x ++ String "." y /\ y <> EmptyString.
Proof.
  induction s as [| c s IH]; simpl; [done |].
  intros Hd. apply orb_prop in Hd as [Hd | Hd].
  - apply andb_prop in Hd as [Hc Hs].
    destruct (Ascii.eqb_spec c ".") as [-> |]; [| done].
    exists EmptyString, s. split; [done |].
    by destruct (String.eqb_spec s EmptyString).
  - destruct (IH Hd) as (x & y & -> & Hy). by exists (String c x), y.
Qed.

Lemma dot_then_more_app (x y : string) :
  y <> EmptyString -> dot_then_more (x ++ String "." y) = true.
Proof.
  intros Hy. induction x as [| c x IH]; simpl.
  - by destruct (String.eqb_spec y EmptyString).
  - rewrite IH. by rewrite orb_true_r.
Qed.

(** X19. The pattern of both forms accepts exactly the texts made of a local
    part, an [@], a domain part, a dot and a last part, where each part is
    not empty and holds neither white space nor an [@]. *)
Theorem emailRegex_accepts (s : string) :
  emailRegex_test s = true <->
  exists a b c,
    s = a ++ "@" ++ b ++ "." ++ c /\ plain_text a /\ plain_text b /\ plain_text c.
Proof.
  unfold emailRegex_test, plain_text. split.
  - destruct (split_at_sign s) as [[local domain]|] eqn:Hsplit; [| done].
    intros Ht. apply andb_prop in Ht as [Ht Hdot].
    apply andb_prop in Ht as [Ht Hdomain]. apply andb_prop in Ht as [Hne Hlocal].
    destruct domain as [| c0 rest]; [done |].
    destruct (dot_then_more_inv rest Hdot) as (x & y & -> & Hy).
    exists local, (String c0 x), y.
    rewrite <- append_cons in *.
    rewrite all_plain_app in Hdomain. apply andb_prop in Hdomain as [Hb Hc].
    simpl in Hc.
    split; [by apply split_at_sign_inv |].
    split; [split; [by destruct (String.eqb_spec local EmptyString) | done] |].
    split; [done |]. by split.
  - intros (a & b & c & -> & [Ha Hpa] & [Hb Hpb] & [Hc Hpc]).
    change (a ++ "@" ++ b ++ "." ++ c) with (a ++ String "@" (b ++ String "." c)).
    rewrite (split_at_sign_app a _ Hpa).
    destruct (String.eqb_spec a EmptyString); [done |]. rewrite Hpa. simpl.
    rewrite all_plain_app, Hpb. simpl. rewrite Hpc. simpl.
    destruct b as [| c0 b]; [done |]. rewrite append_cons. by apply dot_then_more_app.
Qed.

End EmailPattern.

Lemma emailRegex_accepts_witness : emailRegex_test "a@x.com" = true.
Proof.
  apply emailRegex_accepts. exists "a", "x", "com".
  split; [reflexivity |]. repeat split; discriminate.
Defined.

Section FormHandlers.
Context `{Runtime} (engine_message : JsError -> string).

Lemma login_error_text_not_empty (message : string) :
  message <> EmptyString -> login_error_text message <> EmptyString.
Proof.
  intros Hm. unfold login_error_text. by repeat case_match.
Qed.

Lemma register_error_text_not_empty (message : string) :
  message <> EmptyString -> register_error_text message <> EmptyString.
Proof.
  intros Hm. unfold register_error_text. by repeat case_match.
Qed.

(** X20. [handleLogin] sends nothing when a field is empty or the e-mail address
    does not match the pattern: the world is left as it is, no request
    included, the form is not set loading, and the snackbar shows an
    error. *)
Theorem handleLogin_rejects_invalid (email password : string)
    (r_login r_me : HttpOutcome) (f_user f_token : bool) (st : FormState) (w : World) :
  email = EmptyString \/ password = EmptyString \/ emailRegex_test email = false ->
  snd (handleLogin engine_message email password r_login r_me f_user f_token st w) = w /\
  let st' := fst (handleLogin engine_message email password r_login r_me f_user f_token
                    st w) in
  form_loading st' = form_loading st /\
  snackbarVisible st' = true /\ snackbarType st' = snack_error /\
  snackbarMessage st' <> EmptyString.
Proof.
  unfold handleLogin. intros Hbad.
  destruct (String.eqb_spec email EmptyString) as [-> | He]; [done |].
  destruct (String.eqb_spec password EmptyString) as [-> | Hp]; [done |].
  destruct Hbad as [? | [? | ->]]; done.
Qed.

(** X21. With both fields filled in and an e-mail address that matches,
    [handleLogin] does to the world what [login] does and nothing more, and
    always ends with the form no longer loading.  When [login] resolves the
    snackbar is as it was; when it throws, the snackbar shows an error whose
    text is not empty. *)
Theorem handleLogin_submits (email password : string)
    (r_login r_me : HttpOutcome) (f_user f_token : bool) (st : FormState) (w : World) :
  email <> EmptyString -> password <> EmptyString -> emailRegex_test email = true ->
  snd (handleLogin engine_message email password r_login r_me f_user f_token st w)
  = after (login email password r_login r_me f_user f_token) w /\
  let st' := fst (handleLogin engine_message email password r_login r_me f_user f_token
                    st w) in
  form_loading st' = false /\
  (outcome (login email password r_login r_me f_user f_token) w = Ok tt ->
   snackbarVisible st' = snackbarVisible st /\
   snackbarMessage st' = snackbarMessage st /\
   snackbarType st' = snackbarType st) /\
  (forall e, outcome (login email password r_login r_me f_user f_token) w = Throw e ->
   snackbarVisible st' = true /\ snackbarType st' = snack_error /\
   snackbarMessage st' <> EmptyString).
Proof.
  intros He Hp Hm. unfold handleLogin, after, outcome.
  destruct (String.eqb_spec email EmptyString); [done |].
  destruct (String.eqb_spec password EmptyString); [done |].
  rewrite Hm. simpl.
  destruct (login email password r_login r_me f_user f_token w) as [[[] | e] w'];
    simpl; (split; [done |]); (split; [done |]); (split; [done |]).
  - done.
  - intros e' [= <-]. split; [done |]. split; [done |].
    destruct (String.eqb_spec (message_of engine_message e) EmptyString); [done |].
    by apply login_error_text_not_empty.
Qed.

(** X22. [handleRegister] sends nothing when a required field is empty, the
    e-mail address does not match the pattern, the password has fewer than 6
    or more than 72 characters, or the confirmation differs from it: the
    world is left as it is and the snackbar shows an error. *)
Theorem handleRegister_rejects_invalid
    (email password confirmPassword name phone : string)
    (r : HttpOutcome) (st : FormState) (w : World) :
  email = EmptyString \/ password = EmptyString \/ name = EmptyString \/
  emailRegex_test email = false \/
  (String.length password < 6)%nat \/ (72 < String.length password)%nat \/
  password <> confirmPassword ->
  snd (handleRegister engine_message email password confirmPassword name phone r st w)
  = w /\
  let st' := fst (handleRegister engine_message email password confirmPassword name
                    phone r st w) in
  form_loading st' = form_loading st /\
  snackbarVisible st' = true /\ snackbarType st' = snack_error /\
  scheduled st' = scheduled st.
Proof.
  unfold handleRegister. intros Hbad.
  destruct (String.eqb_spec email EmptyString) as [-> | He]; [done |].
  destruct (String.eqb_spec password EmptyString) as [-> | Hp]; [done |].
  destruct (String.eqb_spec name EmptyString) as [-> | Hn]; [done |].
  simpl.
  destruct (emailRegex_test email); [| done]. simpl.
  destruct (Nat.ltb_spec (String.length password) 6); [done |].
  destruct (Nat.ltb_spec 72 (String.length password)); [done |].
  destruct (String.eqb_spec password confirmPassword); [| done]. simpl.
  destruct Hbad as [? | [? | [? | [? | [? | [? | ?]]]]]]; try done; lia.
Qed.

(** X23. With valid fields [handleRegister] sends one request, a POST to
    [/auth/register] whose JSON body holds the e-mail address, the password,
    the name and the phone as typed (the phone also when it is the empty
    text) and the role ['police'], and never changes the session: the
    in-memory user, the loading flag and the store are as before.  The form ends not loading; if the registration was accepted the
    snackbar announces it and the way back to the login screen is
    scheduled, otherwise the snackbar shows an error and nothing is
    scheduled. *)
Theorem handleRegister_submits
    (email password confirmPassword name phone : string)
    (r : HttpOutcome) (st : FormState) (w : World) :
  email <> EmptyString -> password <> EmptyString -> name <> EmptyString ->
  emailRegex_test email = true ->
  (6 <= String.length password <= 72)%nat ->
  password = confirmPassword ->
  let result := handleRegister engine_message email password confirmPassword name
                  phone r st w in
  (exists fields,
     trace (snd result)
     = (trace w ++ [EvFetch (mkRequest (getAuthUrl REGISTER) "POST"
                               {[ "Content-Type" := "application/json" ]}
                               (Some (JSON_stringify (JsObject fields))))])%list /\
     lookup_field "email" fields = JsString email /\
     lookup_field "password" fields = JsString password /\
     lookup_field "name" fields = JsString name /\
     lookup_field "phone" fields = JsString phone /\
     lookup_field "role" fields = JsString "police") /\
  user (snd result) = user w /\ loading (snd result) = loading w /\
  storage (snd result) = storage w /\
  form_loading (fst result) = false /\
  snackbarVisible (fst result) = true /\
  match r with
  | Responded resp =>
      if ok resp
      then snackbarType (fst result) = snack_success /\
           scheduled (fst result) = (scheduled st ++ [Login])%list
      else snackbarType (fst result) = snack_error /\
           scheduled (fst result) = scheduled st
  | NoResponse =>
      snackbarType (fst result) = snack_error /\ scheduled (fst result) = scheduled st
  end.
Proof.
  intros He Hp Hn Hm [Hlo Hhi] <-. unfold handleRegister.
  destruct (String.eqb_spec email EmptyString); [done |].
  destruct (String.eqb_spec password EmptyString); [done |].
  destruct (String.eqb_spec name EmptyString); [done |].
  rewrite Hm. simpl.
  destruct (Nat.ltb_spec (String.length password) 6); [lia |].
  destruct (Nat.ltb_spec 72 (String.length password)); [lia |].
  rewrite String.eqb_refl. simpl.
  unfold register, register_request, optional. unfold_async.
  destruct r as [resp|]; simpl; [destruct (ok resp); simpl |];
    (split; [eexists; split; [reflexivity | by repeat split] | done]).
Qed.

End FormHandlers.

Lemma handleLogin_rejects_invalid_witness :
  let st := mkForm false false EmptyString snack_info [] in
  snd (handleLogin (H := Demo.runtime) (fun _ => "Network request failed")
         "not-an-address" "secret" Demo.ok_login Demo.ok_me false false st (mount ∅))
  = mount ∅.
Proof.
  apply (handleLogin_rejects_invalid (H := Demo.runtime)).
  right. right. reflexivity.
Defined.

Lemma handleLogin_submits_witness :
  let st := mkForm false false EmptyString snack_info [] in
  let result := handleLogin (H := Demo.runtime) (fun _ => "Network request failed")
                  "a@x.com" "secret" Demo.ok_login Demo.ok_me false false st (mount ∅) in
  storage (snd result) !! "token" = Some "T" /\ form_loading (fst result) = false.
Proof.
  destruct (handleLogin_submits (H := Demo.runtime) (fun _ => "Network request failed")
              "a@x.com" "secret" Demo.ok_login Demo.ok_me false false
              (mkForm false false EmptyString snack_info []) (mount ∅))
    as (Hw & Hl & _); [discriminate | discriminate | reflexivity |].
  cbv zeta. rewrite Hw. split; [reflexivity | exact Hl].
Defined.

Lemma handleRegister_rejects_invalid_witness :
  let st := mkForm false false EmptyString snack_info [] in
  snd (handleRegister (H := Demo.runtime) (fun _ => "Network request failed")
         "a@x.com" "short" "short" "A" EmptyString Demo.ok_login st (mount ∅))
  = mount ∅.
Proof.
  apply (handleRegister_rejects_invalid (H := Demo.runtime)).
  do 4 right. left. simpl. lia.
Defined.

Lemma handleRegister_submits_witness :
  let st := mkForm false false EmptyString snack_info [] in
  let result := handleRegister (H := Demo.runtime) (fun _ => "Network request failed")
                  "a@x.com" "secret" "secret" "A" EmptyString
                  (Responded (mkResponse 201 "{}")) st (mount ∅) in
  snackbarType (fst result) = snack_success /\ scheduled (fst result) = [Login] /\
  user (snd result) = JsNull.
Proof.
  destruct (handleRegister_submits (H := Demo.runtime) (fun _ => "Network request failed")
              "a@x.com" "secret" "secret" "A" EmptyString
              (Responded (mkResponse 201 "{}"))
              (mkForm false false EmptyString snack_info []) (mount ∅))
    as (_ & Hu & _ & _ & _ & _ & Hs & Hn);
    [discriminate | discriminate | discriminate | reflexivity | simpl; lia | reflexivity |].
  split; [exact Hs |]. split; [exact Hn | exact Hu].
Defined.

(** * screens/admin/PendingApprovalsScreen.tsx *)

Section PendingApprovals.

Lemma filter_out_filter (userId : string) (items : list JsValue) :
  Forall (fun item => nullish item = false) items ->
  filter_out userId items
  = Some (filter (fun item => has_id userId item = false) items).
Proof.
  induction 1 as [| item items Hitem _ IH]; [done |].
  simpl. rewrite IH, filter_cons.
  destruct (get_prop item "id") as [id|] eqn:Hid; [| by destruct item].
  assert (has_id userId item = strict_eq_string id userId) as Hh.
  { unfold has_id, get_prop_opt. by rewrite Hid. }
  destruct (strict_eq_string id userId) eqn:Heq; simpl.
  - rewrite decide_False; [done |]. by rewrite Hh.
  - rewrite decide_True; [done |]. by rewrite Hh.
Qed.

(** X24. When the approval is accepted by the server and the list holds no
    [null] entry, [approveUser] takes out of the list exactly the entries
    whose [id] is the approved one, keeping the others in their order; it
    reports success, touches nothing but the list, and leaves no user marked
    as being processed. *)
Theorem approveUser_removes (userId : string) (f_read : bool) (o : HttpOutcome)
    (f_user f_token : bool) (st : ApprovalsState) (w : World)
    (items : list JsValue) (resp : Response) :
  users st = JsArray items ->
  Forall (fun item => nullish item = false) items ->
  outcome (api_request (approve_request userId) f_read o f_user f_token) w = Ok resp ->
  exists st',
    fst (approveUser userId f_read o f_user f_token st w) = Some st' /\
    users st' = JsArray (filter (fun item => has_id userId item = false) items) /\
    (forall item kept, users st' = JsArray kept -> item ∈ kept ->
       has_id userId item = false /\ item ∈ items) /\
    processing st' = None /\
    approvals_loading st' = approvals_loading st /\ refreshing st' = refreshing st /\
    alerts st' = (alerts st ++ [("Success", "Police user approved successfully")])%list.
Proof.
  intros Hu Hitems Hok. unfold approveUser, outcome in *.
  destruct (api_request (approve_request userId) f_read o f_user f_token w)
    as [[resp' | e] w']; [| done].
  simpl. rewrite Hu. simpl. rewrite (filter_out_filter userId items Hitems).
  eexists. split; [reflexivity |]. simpl.
  split; [done |]. split; [| done].
  intros item kept [= <-] Hin. apply list_elem_of_filter in Hin. done.
Qed.

(** X25. When the call is rejected, for whatever reason, [approveUser] leaves
    the list as it is, raises the error alert, and leaves no user marked as
    being processed; the world is what the pipeline made of it. *)
Theorem approveUser_failure (userId : string) (f_read : bool) (o : HttpOutcome)
    (f_user f_token : bool) (st : ApprovalsState) (w : World) (e : JsError) :
  outcome (api_request (approve_request userId) f_read o f_user f_token) w = Throw e ->
  exists st',
    fst (approveUser userId f_read o f_user f_token st w) = Some st' /\
    users st' = users st /\ processing st' = None /\
    alerts st' = (alerts st ++ [("Error", "Failed to approve user")])%list /\
    snd (approveUser userId f_read o f_user f_token st w)
    = after (api_request (approve_request userId) f_read o f_user f_token) w.
Proof.
  intros Hfail. unfold approveUser, outcome, after in *.
  destruct (api_request (approve_request userId) f_read o f_user f_token w)
    as [[resp' | e'] w']; [done |].
  simpl. eexists. by split.
Qed.

Lemma api_request_outcome_any (c1 c2 : Request) (f_read : bool) (o : HttpOutcome)
    (f_user f_token : bool) (w : World) :
  match outcome (api_request c1 f_read o f_user f_token) w,
        outcome (api_request c2 f_read o f_user f_token) w with
  | Ok r1, Ok r2 => r1 = r2
  | Throw e1, Throw e2 => e1 = e2
  | _, _ => False
  end.
Proof.
  unfold api_request, request_interceptor, response_rejected, is_unauthorized.
  unfold_async.
  destruct f_read; simpl; [done |].
  destruct (truthy_item (storage w !! "token")); simpl;
    (destruct o as [resp|]; simpl; [| done]);
    (destruct (ok resp); simpl; [done |]);
    (destruct (status resp =? 401); simpl; [| done]);
    destruct f_user, f_token; done.
Qed.

(** X26. [rejectUser] always raises its confirmation first.  When the
    confirmation is not accepted that alert is all that happens: nothing is
    sent and the list is as it was.  When it is accepted, [rejectUser] does
    to the list and to [processing] what [approveUser] does under the same
    answer of the server, and its alerts are the confirmation followed by
    the report of the outcome. *)
Theorem rejectUser_like_approveUser (userId : string) (f_read : bool)
    (o : HttpOutcome) (f_user f_token : bool) (st : ApprovalsState) (w : World) :
  rejectUser userId false f_read o f_user f_token st w
  = (Some (mkApprovals (users st) (approvals_loading st) (refreshing st) (processing st)
             (alerts st ++
              [("Reject User",
                "Are you sure you want to reject this police user? This action cannot be undone.")])),
     w) /\
  option_map users (fst (rejectUser userId true f_read o f_user f_token st w))
  = option_map users (fst (approveUser userId f_read o f_user f_token st w)) /\
  option_map processing (fst (rejectUser userId true f_read o f_user f_token st w))
  = option_map processing (fst (approveUser userId f_read o f_user f_token st w)) /\
  (forall st',
     fst (rejectUser userId true f_read o f_user f_token st w) = Some st' ->
     alerts st'
     = (alerts st ++
        [("Reject User",
          "Are you sure you want to reject this police user? This action cannot be undone.");
         match outcome (api_request (reject_request userId) f_read o f_user f_token) w with
         | Ok _ => ("Success", "Police user rejected successfully")
         | Throw _ => ("Error", "Failed to reject user")
         end])%list) /\
  snd (rejectUser userId true f_read o f_user f_token st w)
  = after (api_request (reject_request userId) f_read o f_user f_token) w.
Proof.
  split; [done |]. unfold rejectUser, approveUser.
  pose proof (api_request_outcome_any (reject_request userId) (approve_request userId)
                f_read o f_user f_token w) as Hsame.
  unfold outcome, after in *.
  destruct (api_request (reject_request userId) f_read o f_user f_token w)
    as [[r1 | e1] w1];
    destruct (api_request (approve_request userId) f_read o f_user f_token w)
      as [[r2 | e2] w2]; simpl in *; try done.
  - destruct (without_user userId (users st)); simpl; repeat split; try done.
    intros st' [= <-]. simpl. by rewrite <- app_assoc.
  - repeat split. intros st' [= <-]. simpl. by rewrite <- app_assoc.
Qed.

End PendingApprovals.

Lemma approveUser_removes_witness :
  let pending := [JsObject [("id", JsString "7")]; JsObject [("id", JsString "8")]] in
  let st := mkApprovals (JsArray pending) false false None [] in
  exists st',
    fst (approveUser "7" false (Responded (mkResponse 200 "{}")) false false st
           (mount Demo.full_store)) = Some st' /\
    users st' = JsArray [JsObject [("id", JsString "8")]].
Proof.
  destruct (approveUser_removes "7" false (Responded (mkResponse 200 "{}")) false false
              (mkApprovals
                 (JsArray [JsObject [("id", JsString "7")]; JsObject [("id", JsString "8")]])
                 false false None [])
              (mount Demo.full_store)
              [JsObject [("id", JsString "7")]; JsObject [("id", JsString "8")]]
              (mkResponse 200 "{}"))
    as (st' & Hrun & Hu & _); [reflexivity | by repeat constructor | reflexivity |].
  exists st'. split; [exact Hrun | exact Hu].
Defined.

Lemma approveUser_failure_witness :
  let st := mkApprovals (JsArray [JsObject [("id", JsString "7")]]) false false None [] in
  exists st',
    fst (approveUser "7" false Demo.unauthorized false false st (mount Demo.full_store))
    = Some st' /\
    users st' = users st /\ processing st' = None.
Proof.
  destruct (approveUser_failure "7" false Demo.unauthorized false false
              (mkApprovals (JsArray [JsObject [("id", JsString "7")]]) false false None [])
              (mount Demo.full_store) (AxiosError (Some (mkResponse 401 EmptyString))))
    as (st' & Hrun & Hu & Hp & _); [reflexivity |].
  exists st'. split; [exact Hrun |]. split; [exact Hu | exact Hp].
Defined.
